(** * Order ledger, return-trip verification and device activation of the
      code shop server (src/unnamed/part_000, src/models/Order.js,
      src/models/SourceCode.js).

    Shallow embedding.  The MongoDB collections are lists in natural
    (insertion) order; [findOne]/[findById] return the first match and
    [updateOne]/[findByIdAndUpdate]/[doc.save()] update the first match.
    A request handler is a function [Store -> Resp * Store].  Times
    ([Date.now()], [new Date()]) are passed in as [N] milliseconds.
    The HMAC-SHA256 hex digest is an abstract function of key and message. *)

From Stdlib Require Import String List Bool NArith Lia.
From stdpp Require Import base list strings pretty.
Import ListNotations.
Open Scope string_scope.

(* ------------------------------------------------------------------ *)
(** ** Data model (models/Order.js, models/SourceCode.js) *)

Inductive OrderStatus := PENDING | PAID.

Definition status_eqb (a b : OrderStatus) : bool :=
  match a, b with
  | PENDING, PENDING | PAID, PAID => true
  | _, _ => false
  end.

(** ActivationSchema: [isActivated] defaults to false. *)
Record Activation := mkActivation {
  isActivated : bool;
  activatedAt : option N;
  deviceId : option string;
  ip : option string
}.

(** The subdocument created by the schema default [() => ({})]. *)
Definition default_activation : Activation :=
  {| isActivated := false; activatedAt := None; deviceId := None; ip := None |}.

(** OrderSchema.  [activation] is [None] when the document stores
    [activation: null]. *)
Record Order := mkOrder {
  order_id : N;
  buyerName : string;
  buyerEmail : string;
  code : N;
  amount : N;
  orderCode : N;
  status : OrderStatus;
  paymentLinkId : option string;
  checkoutUrl : option string;
  paidAt : option N;
  activation : option Activation
}.

Record SourceCode := mkSourceCode {
  code_id : N;
  title : string;
  imageUrl : option string;
  description : option string;
  driveLink : string;
  priceVND : N
}.

Record Store := mkStore {
  orders : list Order;
  codes : list SourceCode
}.

(* field updates, as Mongoose [$set] on one path *)
Definition set_status_paidAt (st : OrderStatus) (t : option N) (o : Order) : Order :=
  {| order_id := order_id o; buyerName := buyerName o; buyerEmail := buyerEmail o;
     code := code o; amount := amount o; orderCode := orderCode o; status := st;
     paymentLinkId := paymentLinkId o; checkoutUrl := checkoutUrl o;
     paidAt := t; activation := activation o |}.

Definition set_activation (a : option Activation) (o : Order) : Order :=
  {| order_id := order_id o; buyerName := buyerName o; buyerEmail := buyerEmail o;
     code := code o; amount := amount o; orderCode := orderCode o; status := status o;
     paymentLinkId := paymentLinkId o; checkoutUrl := checkoutUrl o;
     paidAt := paidAt o; activation := a |}.

Definition set_payment (pl cu : option string) (o : Order) : Order :=
  {| order_id := order_id o; buyerName := buyerName o; buyerEmail := buyerEmail o;
     code := code o; amount := amount o; orderCode := orderCode o; status := status o;
     paymentLinkId := pl; checkoutUrl := cu;
     paidAt := paidAt o; activation := activation o |}.

(** [{ status: 'PAID', paidAt: new Date() }] *)
Definition mark_paid_fields (now : N) (o : Order) : Order :=
  set_status_paidAt PAID (Some now) o.

(** [order.activation?.isActivated] *)
Definition is_activated (o : Order) : bool :=
  match activation o with
  | Some a => isActivated a
  | None => false
  end.

(* ------------------------------------------------------------------ *)
(** ** The collections *)

Fixpoint update_first {A} (p : A -> bool) (f : A -> A) (l : list A) : list A :=
  match l with
  | [] => []
  | x :: l' => if p x then f x :: l' else x :: update_first p f l'
  end.

(** [Order.findById(id)] *)
Definition find_by_id (i : N) (s : Store) : option Order :=
  List.find (fun o => N.eqb (order_id o) i) (orders s).

(** [Order.findOne({ orderCode })] *)
Definition find_one_code (c : N) (s : Store) : option Order :=
  List.find (fun o => N.eqb (orderCode o) c) (orders s).

(** [.populate('code')]: [null] when the catalog item was deleted. *)
Definition populate (o : Order) (s : Store) : option SourceCode :=
  List.find (fun c => N.eqb (code_id c) (code o)) (codes s).

(** [Order.findByIdAndUpdate(id, ...)] and [order.save()] (by [_id]) *)
Definition update_order (i : N) (f : Order -> Order) (s : Store) : Store :=
  {| orders := update_first (fun o => N.eqb (order_id o) i) f (orders s);
     codes := codes s |}.

(** [Order.updateOne({ orderCode }, ...)] *)
Definition update_one_code (c : N) (f : Order -> Order) (s : Store) : Store :=
  {| orders := update_first (fun o => N.eqb (orderCode o) c) f (orders s);
     codes := codes s |}.

(* ------------------------------------------------------------------ *)
(** ** JavaScript values *)

(** Truthiness of a JSON number field: [undefined] and [0] are falsy. *)
Definition truthy_num (v : option N) : option N :=
  match v with
  | Some n => if N.eqb n 0 then None else Some n
  | None => None
  end.

(** Truthiness of a string field: [undefined] and [""] are falsy. *)
Definition truthy_str (v : option string) : option string :=
  match v with
  | Some x => if String.eqb x "" then None else Some x
  | None => None
  end.

(** [a || b] on string-or-undefined values *)
Definition js_or (a b : option string) : option string :=
  match truthy_str a with
  | Some x => Some x
  | None => b
  end.

(** [a === b] on string-or-undefined values *)
Definition opt_str_eqb (a b : option string) : bool :=
  match a, b with
  | Some x, Some y => String.eqb x y
  | None, None => true
  | _, _ => false
  end.

(** A request header value: a string, or an array of strings. *)
Inductive HeaderVal := HStr (h : string) | HArr (l : list string).

(* ------------------------------------------------------------------ *)
(** ** Responses *)

Inductive Resp :=
  | BadRequest (msg : string)                      (* 400 *)
  | NotFound                                       (* 404 *)
  | NotPaid                                        (* 400 'Order is not PAID' *)
  | AlreadyActivated (at_ : option N) (dev : option string)  (* 409 *)
  | NotActivated                                   (* 403 *)
  | DeviceMismatch                                 (* 409 *)
  | Unauthorized                                   (* 401 *)
  | ServerError                                    (* 500 *)
  | Activated (oid oc : N) (dev : option string) (at_ : N) (link : option string)
  | ValidOk                                        (* 200 {ok:true} *)
  | ResetOk                                        (* 200 {ok:true} *)
  | Redirect (url : option string)
  | RenderStatus (o : Order) (ok : bool).          (* order_status page *)

(* ------------------------------------------------------------------ *)
(** ** Handlers *)

(** POST /order.  [new_id] is the fresh [_id] of the created document;
    [orderCode] is [Date.now()] = [now].  [payos] is the result of
    [payos.paymentRequests.create]: [None] when it throws, otherwise the
    [paymentLinkId] and [checkoutUrl] read from it.  The return URL signed
    here is only handed to the provider and is not stored. *)
Definition create_order (now new_id codeId : N) (name email : string)
    (payos : option (option string * option string)) (s : Store) : Resp * Store :=
  match List.find (fun c => N.eqb (code_id c) codeId) (codes s) with
  | None => (NotFound, s)
  | Some c =>
      if existsb (fun o => N.eqb (order_id o) new_id || N.eqb (orderCode o) now) (orders s)
      then (ServerError, s)  (* Order.create: duplicate key, caught *)
      else
        let o := {| order_id := new_id; buyerName := name; buyerEmail := email;
                    code := code_id c; amount := priceVND c; orderCode := now;
                    status := PENDING; paymentLinkId := None; checkoutUrl := None;
                    paidAt := None; activation := Some default_activation |} in
        let s1 := {| orders := orders s ++ [o]; codes := codes s |} in
        match payos with
        | None => (ServerError, s1)
        | Some (pl, cu) => (Redirect cu, update_order new_id (set_payment pl cu) s1)
        end
  end.

(** Query string of GET /order/:id/success. *)
Record Query := mkQuery {
  q_status : option string;
  q_orderCode : option string;
  q_sig : option string
}.

Section ReturnTrip.

(** [crypto.createHmac('sha256', key).update(msg).digest('hex')] *)
Variable hmac_sha256_hex : string -> string -> string.

(** [`${order.orderCode}:${status}`] *)
Definition sig_message (oc : N) (st : option string) : string :=
  pretty oc +:+ ":" +:+ (match st with Some x => x | None => "undefined" end).

(** The condition [status === 'PAID' && sig === expected], where the
    [expected] digest is computed under the key [k]. *)
Definition sig_ok (k : string) (o : Order) (q : Query) : bool :=
  opt_str_eqb (q_status q) (Some "PAID") &&
  opt_str_eqb (q_sig q) (Some (hmac_sha256_hex k (sig_message (orderCode o) (q_status q)))).

(** GET /order/:id/success.  [key] is [process.env.PAYOS_CHECKSUM_KEY]:
    when it is undefined [createHmac] throws and the catch ignores it.
    [save_ok] says whether [await order.save()] resolves; when it
    rejects, the catch ignores it too, after the in-memory [order] has
    been assigned.  The page renders the in-memory [order]. *)
Definition success (key : option string) (save_ok : bool) (now id : N) (q : Query)
    (s : Store) : Resp * Store :=
  match find_by_id id s with
  | None => (NotFound, s)
  | Some o =>
      match key with
      | None => (RenderStatus o true, s)
      | Some k =>
          if sig_ok k o q then
            let o' := mark_paid_fields now o in
            if save_ok
            then (RenderStatus o' true, update_order (order_id o) (mark_paid_fields now) s)
            else (RenderStatus o' true, s)
          else (RenderStatus o true, s)
      end
  end.

End ReturnTrip.

(** POST /admin/orders/:id/mark-paid *)
Definition mark_paid (now id : N) (s : Store) : Resp * Store :=
  (Redirect (Some "/admin/orders"), update_order id (mark_paid_fields now) s).

(** The subdocument written by POST /admin/activations/:id/reset. *)
Definition cleared_activation : Activation :=
  {| isActivated := false; activatedAt := None; deviceId := None; ip := None |}.

(** POST /admin/activations/:id/reset *)
Definition reset_ui (id : N) (s : Store) : Resp * Store :=
  (Redirect (Some "back"), update_order id (set_activation (Some cleared_activation)) s).

(** POST /api/admin/reset-activation.  [env_secret] is
    [process.env.ADMIN_ACTIVATE_SECRET], [hdr] the [x-admin-secret] header. *)
Definition reset_api (env_secret hdr : option string) (oc : option N) (s : Store)
    : Resp * Store :=
  if negb (opt_str_eqb hdr env_secret) then (Unauthorized, s)
  else
    match truthy_num oc with
    | None => (BadRequest "orderCode required", s)
    | Some c => (ResetOk, update_one_code c (set_activation None) s)
    end.

(** Body and connection data of POST /api/activate. *)
Record ActivateReq := mkActivateReq {
  a_orderCode : option N;
  a_deviceId : option string;
  xff : option HeaderVal;              (* req.headers['x-forwarded-for'] *)
  remoteAddress : option string;       (* req.socket?.remoteAddress *)
  req_ip : option string               (* req.ip *)
}.

(** [Array.isArray(ipHeader) ? ipHeader[0]
      : (ipHeader || req.socket?.remoteAddress || req.ip || '').toString()] *)
Definition infer_ip (rq : ActivateReq) : option string :=
  match xff rq with
  | Some (HArr l) => head l
  | Some (HStr h) =>
      Some (match js_or (Some h) (js_or (remoteAddress rq) (req_ip rq)) with
            | Some x => x | None => "" end)
  | None =>
      Some (match js_or (remoteAddress rq) (req_ip rq) with
            | Some x => x | None => "" end)
  end.

(** [order.code?.driveLink || null] *)
Definition drive_link_of (o : Order) (s : Store) : option string :=
  match populate o s with
  | Some c => truthy_str (Some (driveLink c))
  | None => None
  end.

(** POST /api/activate is a read (findOne + checks) followed, on the
    success path, by [await order.save()] of the [activation] path.
    Other requests may run between the two awaits. *)
Inductive ActStep :=
  | ActDone (r : Resp)
  | ActSave (oid : N) (a : Activation) (r : Resp).

Definition activate_read (now : N) (rq : ActivateReq) (s : Store) : ActStep :=
  match truthy_num (a_orderCode rq) with
  | None => ActDone (BadRequest "orderCode is required")
  | Some c =>
      match find_one_code c s with
      | None => ActDone NotFound
      | Some o =>
          if negb (status_eqb (status o) PAID) then ActDone NotPaid
          else
            match activation o with
            | Some a =>
                if isActivated a then ActDone (AlreadyActivated (activatedAt a) (deviceId a))
                else
                  let a' := {| isActivated := true; activatedAt := Some now;
                               deviceId := truthy_str (a_deviceId rq); ip := infer_ip rq |} in
                  ActSave (order_id o) a'
                    (Activated (order_id o) (orderCode o) (deviceId a') now (drive_link_of o s))
            | None =>
                let a' := {| isActivated := true; activatedAt := Some now;
                             deviceId := truthy_str (a_deviceId rq); ip := infer_ip rq |} in
                ActSave (order_id o) a'
                  (Activated (order_id o) (orderCode o) (deviceId a') now (drive_link_of o s))
            end
      end
  end.

(** The save; a rejected save is caught and answered with 500. *)
Definition activate_commit (save_ok : bool) (st : ActStep) (s : Store) : Resp * Store :=
  match st with
  | ActDone r => (r, s)
  | ActSave i a r =>
      if save_ok then (r, update_order i (set_activation (Some a)) s) else (ServerError, s)
  end.

(** The activation subdocument written on a first activation. *)
Definition new_activation (now : N) (rq : ActivateReq) : Activation :=
  {| isActivated := true; activatedAt := Some now;
     deviceId := truthy_str (a_deviceId rq); ip := infer_ip rq |}.

(** The whole handler, run without interleaving. *)
Definition activate (save_ok : bool) (now : N) (rq : ActivateReq) (s : Store) : Resp * Store :=
  activate_commit save_ok (activate_read now rq s) s.

(** Body of POST /api/validate. *)
Record ValidateReq := mkValidateReq {
  v_orderCode : option N;
  v_deviceId : option string
}.

(** POST /api/validate *)
Definition validate (rq : ValidateReq) (s : Store) : Resp * Store :=
  match truthy_num (v_orderCode rq), truthy_str (v_deviceId rq) with
  | Some c, Some dev =>
      match find_one_code c s with
      | None => (NotFound, s)
      | Some o =>
          if negb (status_eqb (status o) PAID) then (NotPaid, s)
          else
            match activation o with
            | Some a =>
                if negb (isActivated a) then (NotActivated, s)
                else
                  match truthy_str (deviceId a) with
                  | Some bound => if negb (String.eqb bound dev) then (DeviceMismatch, s)
                                  else (ValidOk, s)
                  | None => (ValidOk, s)
                  end
            | None => (NotActivated, s)
            end
      end
  | _, _ => (BadRequest "orderCode & deviceId required", s)
  end.

(** Catalog administration (POST /admin/codes, PUT and DELETE /admin/codes/:id). *)
Definition create_code (c : SourceCode) (s : Store) : Resp * Store :=
  (Redirect (Some "/admin/codes"), {| orders := orders s; codes := codes s ++ [c] |}).

Definition update_code (id : N) (c : SourceCode) (s : Store) : Resp * Store :=
  (Redirect (Some "/admin/codes"),
   {| orders := orders s;
      codes := update_first (fun x => N.eqb (code_id x) id)
                 (fun x => {| code_id := code_id x; title := title c; imageUrl := imageUrl c;
                              description := description c; driveLink := driveLink c;
                              priceVND := priceVND c |}) (codes s) |}).

Fixpoint delete_first {A} (p : A -> bool) (l : list A) : list A :=
  match l with
  | [] => []
  | x :: l' => if p x then l' else x :: delete_first p l'
  end.

Definition delete_code (id : N) (s : Store) : Resp * Store :=
  (Redirect (Some "/admin/codes"),
   {| orders := orders s; codes := delete_first (fun x => N.eqb (code_id x) id) (codes s) |}).

(* ------------------------------------------------------------------ *)
(** ** The server as a transition system *)

(** The database together with the Activate requests that have done
    their read and wait for their save. *)
Record Sys := mkSys {
  sys_store : Store;
  in_flight : list ActStep
}.

(** One step: a whole request to a route, or the read or the save of an
    Activate request, in any interleaving. *)
Inductive sys_step : Sys -> Sys -> Prop :=
  | ss_create now new_id codeId name email payos st l :
      sys_step (mkSys st l) (mkSys (snd (create_order now new_id codeId name email payos st)) l)
  | ss_success hmac key save_ok now id q st l :
      sys_step (mkSys st l) (mkSys (snd (success hmac key save_ok now id q st)) l)
  | ss_mark_paid now id st l :
      sys_step (mkSys st l) (mkSys (snd (mark_paid now id st)) l)
  | ss_reset_ui id st l :
      sys_step (mkSys st l) (mkSys (snd (reset_ui id st)) l)
  | ss_reset_api env hdr oc st l :
      sys_step (mkSys st l) (mkSys (snd (reset_api env hdr oc st)) l)
  | ss_validate rq st l :
      sys_step (mkSys st l) (mkSys (snd (validate rq st)) l)
  | ss_create_code c st l :
      sys_step (mkSys st l) (mkSys (snd (create_code c st)) l)
  | ss_update_code id c st l :
      sys_step (mkSys st l) (mkSys (snd (update_code id c st)) l)
  | ss_delete_code id st l :
      sys_step (mkSys st l) (mkSys (snd (delete_code id st)) l)
  | ss_activate_read now rq st l :
      sys_step (mkSys st l) (mkSys st (activate_read now rq st :: l))
  | ss_activate_save save_ok p st l1 l2 :
      sys_step (mkSys st (l1 ++ p :: l2)) (mkSys (snd (activate_commit save_ok p st)) (l1 ++ l2)).

(** States reachable from an empty order collection. *)
Inductive reachable : Sys -> Prop :=
  | reach_init cs : reachable (mkSys {| orders := []; codes := cs |} [])
  | reach_step x y : reachable x -> sys_step x y -> reachable y.

(** A pending save targets an order that exists and is PAID. *)
Definition pending_ok (st : Store) (p : ActStep) : Prop :=
  match p with
  | ActSave i _ _ => exists o, In o (orders st) /\ order_id o = i /\ status o = PAID
  | ActDone _ => True
  end.

Definition sys_inv (x : Sys) : Prop :=
  List.NoDup (map order_id (orders (sys_store x))) /\
  (forall o, In o (orders (sys_store x)) -> is_activated o = true -> status o = PAID) /\
  Forall (pending_ok (sys_store x)) (in_flight x).

(* ------------------------------------------------------------------ *)
(** ** Further routes *)

(** Response of GET /api/order/:id. *)
Inductive StatusResp :=
  | StatusNotFound                  (* 404 {error:'Not found'} *)
  | StatusJson (st : OrderStatus).  (* 200 {status} *)

(** GET /api/order/:id *)
Definition api_order_status (id : N) (s : Store) : StatusResp * Store :=
  match find_by_id id s with
  | None => (StatusNotFound, s)
  | Some o => (StatusJson (status o), s)
  end.

(** GET /order/:id/cancel *)
Definition cancel_page (id : N) (s : Store) : Resp * Store :=
  match find_by_id id s with
  | None => (NotFound, s)
  | Some o => (RenderStatus o false, s)
  end.

(** The query string carried by the return URL that POST /order hands to
    the provider: [orderCode=${orderCode}&status=${statusText}&sig=${sig}]
    with [statusText = 'PAID'] and [sig] the HMAC of
    [`${orderCode}:${statusText}`] under the checksum key [k]. *)
Definition signed_return_query (hmac : string -> string -> string) (k : string) (oc : N)
    : Query :=
  let statusText := "PAID" in
  {| q_status := Some statusText;
     q_orderCode := Some (pretty oc);
     q_sig := Some (hmac k (pretty oc +:+ ":" +:+ statusText)) |}.

(** The order POST /order appends for catalog item [c]. *)
Definition new_order (now new_id : N) (c : SourceCode) (name email : string) : Order :=
  {| order_id := new_id; buyerName := name; buyerEmail := email;
     code := code_id c; amount := priceVND c; orderCode := now;
     status := PENDING; paymentLinkId := None; checkoutUrl := None;
     paidAt := None; activation := Some default_activation |}.

(** The fields of an order that no route rewrites. *)
Definition order_fixed (o : Order) : N * N * N * N * string * string :=
  (order_id o, orderCode o, amount o, code o, buyerName o, buyerEmail o).

(** How one stored order may change in one step: its fixed fields stay,
    and a PAID order stays PAID. *)
Definition order_evolves (o o' : Order) : Prop :=
  order_fixed o' = order_fixed o /\ (status o = PAID -> status o' = PAID).

(* ------------------------------------------------------------------ *)
(** ** Concrete data used by the examples *)

(** A stand-in keyed digest for evaluating the handlers on concrete
    inputs: the results below depend only on whether [sig] equals the
    digest, not on which digest it is. *)
Definition toy_hmac (k m : string) : string := k +:+ "|" +:+ m.

Definition ex_code : SourceCode :=
  {| code_id := 7; title := "shop"; imageUrl := None; description := None;
     driveLink := "https://drive/x"; priceVND := 100000 |}.

Definition ex_order (st : OrderStatus) (pa : option N) (a : option Activation) : Order :=
  {| order_id := 1; buyerName := "An"; buyerEmail := "an@x.vn"; code := 7;
     amount := 100000; orderCode := 42; status := st; paymentLinkId := None;
     checkoutUrl := None; paidAt := pa; activation := a |}.

Definition ex_store (o : Order) : Store := {| orders := [o]; codes := [ex_code] |}.

Definition ex_paid_query : Query :=
  {| q_status := Some "PAID"; q_orderCode := Some "42";
     q_sig := Some (toy_hmac "K" "42:PAID") |}.

Definition ex_activate_req (oc : option N) (dev : option string) : ActivateReq :=
  {| a_orderCode := oc; a_deviceId := dev; xff := Some (HStr "10.0.0.9");
     remoteAddress := Some "127.0.0.1"; req_ip := Some "127.0.0.1" |}.

Example sig_message_42 : sig_message 42 (Some "PAID") = "42:PAID".
Proof. reflexivity. Qed.

Example success_flips_to_paid :
  snd (success toy_hmac (Some "K") true 9 1 ex_paid_query
         (ex_store (ex_order PENDING None (Some default_activation))))
  = ex_store (ex_order PAID (Some 9%N) (Some default_activation)).
Proof. reflexivity. Qed.

Example success_bad_sig_unchanged :
  snd (success toy_hmac (Some "K") true 9 1
         {| q_status := Some "PAID"; q_orderCode := Some "42"; q_sig := Some "bogus" |}
         (ex_store (ex_order PENDING None (Some default_activation))))
  = ex_store (ex_order PENDING None (Some default_activation)).
Proof. reflexivity. Qed.

(* ------------------------------------------------------------------ *)
(** ** Lemmas on the collections *)

Lemma update_first_find {A} (p : A -> bool) (f : A -> A) (l : list A) :
  (forall x, p (f x) = p x) ->
  List.find p (update_first p f l) = option_map f (List.find p l).
Proof.
  intros Hf. induction l as [|x l IH]; simpl; [done|].
  destruct (p x) eqn:Hx; simpl.
  - by rewrite Hf, Hx.
  - by rewrite Hx.
Qed.

Lemma update_first_in {A} (p : A -> bool) (f : A -> A) (l : list A) (y : A) :
  In y (update_first p f l) -> In y l \/ exists x, In x l /\ p x = true /\ y = f x.
Proof.
  induction l as [|x l IH]; simpl; [done|].
  destruct (p x) eqn:Hx; simpl.
  - intros [<-|Hy]; [right; exists x; auto|auto].
  - intros [<-|Hy]; [auto|].
    destruct (IH Hy) as [?|(z & ? & ? & ?)]; [auto|right; exists z; auto].
Qed.

Lemma update_first_map {A B} (g : A -> B) (p : A -> bool) (f : A -> A) (l : list A) :
  (forall x, g (f x) = g x) -> map g (update_first p f l) = map g l.
Proof.
  intros Hg. induction l as [|x l IH]; simpl; [done|].
  destruct (p x); simpl; by rewrite ?Hg, ?IH.
Qed.

Lemma update_first_nomatch {A} (p : A -> bool) (f : A -> A) (l : list A) :
  List.find p l = None -> update_first p f l = l.
Proof.
  induction l as [|x l IH]; simpl; [done|].
  destruct (p x); [done|]. intros H. by rewrite IH.
Qed.

Lemma find_by_id_id i s o : find_by_id i s = Some o -> order_id o = i.
Proof.
  unfold find_by_id. intros H. apply List.find_some in H as [_ H].
  by apply N.eqb_eq.
Qed.

Lemma find_by_id_update i f s :
  (forall o, order_id (f o) = order_id o) ->
  find_by_id i (update_order i f s) = option_map f (find_by_id i s).
Proof.
  intros Hf. unfold find_by_id, update_order; simpl.
  apply update_first_find. intros x. by rewrite Hf.
Qed.

Lemma string_length_app (a t : string) :
  String.length (a +:+ t) = String.length a + String.length t.
Proof. induction a as [|c a IH]; simpl; [done|]. by rewrite IH. Qed.

Lemma string_app_cancel_r (a b t : string) : a +:+ t = b +:+ t -> a = b.
Proof.
  revert b. induction a as [|c a IH]; intros b H; destruct b as [|d b]; simpl in *.
  - done.
  - exfalso. assert (Hl := f_equal String.length H).
    rewrite !string_length_app in Hl. simpl in Hl. lia.
  - exfalso. assert (Hl := f_equal String.length H).
    rewrite !string_length_app in Hl. simpl in Hl. lia.
  - injection H as -> H. by rewrite (IH b H).
Qed.

Lemma sig_message_paid_inj (a b : N) :
  sig_message a (Some "PAID") = sig_message b (Some "PAID") -> a = b.
Proof.
  unfold sig_message. intros H. apply string_app_cancel_r in H.
  by apply (inj pretty).
Qed.

Lemma toy_hmac_inj k : Inj (=) (=) (toy_hmac k).
Proof.
  intros m1 m2 H. unfold toy_hmac in H.
  induction k as [|c k IH]; simpl in H.
  - by injection H.
  - injection H as H. by apply IH.
Qed.

(* ------------------------------------------------------------------ *)
(** ** Return trip: GET /order/:id/success *)

Lemma sig_ok_iff (hmac : string -> string -> string) k o q :
  sig_ok hmac k o q = true <->
  q_status q = Some "PAID" /\
  q_sig q = Some (hmac k (pretty (orderCode o) +:+ ":PAID")).
Proof.
  unfold sig_ok, opt_str_eqb, sig_message.
  destruct (q_status q) as [st|], (q_sig q) as [sg|]; simpl;
    rewrite ?andb_true_iff, ?String.eqb_eq; split; intros H; try done;
    destruct H as [H1 H2]; try discriminate.
  - subst st. simpl in *. subst sg. done.
  - injection H1 as ->. injection H2 as ->. done.
Qed.

(** The outcome of GET /order/:id/success for a stored order. *)
Lemma success_outcome (hmac : string -> string -> string)
    (key : option string) (save_ok : bool) (now id : N) (q : Query) (s : Store) (o : Order) :
  find_by_id id s = Some o ->
  let ok := match key with Some k => sig_ok hmac k o q | None => false end in
  (ok = true <-> exists k, key = Some k /\ q_status q = Some "PAID" /\
                  q_sig q = Some (hmac k (pretty (orderCode o) +:+ ":PAID"))) /\
  (exists o', fst (success hmac key save_ok now id q s) = RenderStatus o' true /\
     (ok = false -> o' = o) /\ (ok && save_ok = true -> o' = mark_paid_fields now o)) /\
  snd (success hmac key save_ok now id q s)
    = (if ok && save_ok then update_order id (mark_paid_fields now) s else s) /\
  find_by_id id (snd (success hmac key save_ok now id q s))
    = Some (if ok && save_ok then mark_paid_fields now o else o).
Proof.
  intros Hf ok.
  assert (Hid := find_by_id_id _ _ _ Hf).
  assert (Hupd : find_by_id id (update_order id (mark_paid_fields now) s)
                 = Some (mark_paid_fields now o)).
  { rewrite find_by_id_update, Hf; [done|]. intros x. done. }
  split.
  { subst ok. destruct key as [k|].
    - rewrite sig_ok_iff. split.
      + intros H. exists k. done.
      + intros (k' & Hk & H). injection Hk as <-. done.
    - split; [done|]. intros (k' & Hk & _). discriminate. }
  unfold success. rewrite Hf. subst ok.
  destruct key as [k|]; simpl; [|split; [exists o; done|done]].
  destruct (sig_ok hmac k o q); simpl; [|split; [exists o; done|done]].
  rewrite Hid. destruct save_ok; simpl.
  - split; [|done]. eexists. split; [reflexivity|]. done.
  - split; [|done]. eexists. split; [reflexivity|]. done.
Qed.

(** C1 (amended).  For a stored order [o], the request never fails: it
    renders the order_status page.  The verification condition holds
    exactly when the checksum key is configured, the query's [status] is
    "PAID" and its [sig] is the HMAC of [`${o.orderCode}:PAID`].  The
    persisted record becomes PAID with [paidAt] stamped exactly when the
    condition holds and the save succeeds; in every other case (condition
    false, key missing so that [createHmac] throws, or the save rejected)
    the store is unchanged.  When the condition fails the page shows the
    unchanged order; when the save succeeds it shows the updated one. *)
Theorem success_return_trip_outcome (hmac : string -> string -> string)
    (key : option string) (save_ok : bool) (now id : N) (q : Query) (s : Store) (o : Order) :
  find_by_id id s = Some o ->
  let ok := match key with Some k => sig_ok hmac k o q | None => false end in
  (ok = true <-> exists k, key = Some k /\ q_status q = Some "PAID" /\
                  q_sig q = Some (hmac k (pretty (orderCode o) +:+ ":PAID"))) /\
  (exists o', fst (success hmac key save_ok now id q s) = RenderStatus o' true /\
     (ok = false -> o' = o) /\ (ok && save_ok = true -> o' = mark_paid_fields now o)) /\
  snd (success hmac key save_ok now id q s)
    = (if ok && save_ok then update_order id (mark_paid_fields now) s else s) /\
  find_by_id id (snd (success hmac key save_ok now id q s))
    = Some (if ok && save_ok then mark_paid_fields now o else o).
Proof. apply success_outcome. Qed.

(** C1 counterexample.  The save of a verified PAID return trip rejects:
    the rejection is swallowed, the persisted order stays PENDING, and the
    page renders the in-memory order whose status is already PAID, so the
    page does not show the persisted state (and the verified request did
    not set the stored status to PAID). *)
Lemma success_save_rejected_renders_unsaved :
  let s := ex_store (ex_order PENDING None (Some default_activation)) in
  let r := success toy_hmac (Some "K") false 9 1 ex_paid_query s in
  snd r = s /\
  find_by_id 1 (snd r) = Some (ex_order PENDING None (Some default_activation)) /\
  fst r = RenderStatus (ex_order PAID (Some 9%N) (Some default_activation)) true.
Proof. vm_compute. repeat split. Qed.

(** C2.  The handler never reads the query's [orderCode]: two requests
    that differ only there have the same response and the same effect.
    And, for a digest that is collision free under each key, a signature
    issued for another order code never verifies for the stored order,
    which is left unchanged. *)
Theorem success_binds_stored_orderCode (hmac : string -> string -> string)
    (Hinj : forall k, Inj (=) (=) (hmac k))
    (key : option string) (save_ok : bool) (now id : N) (st sg c1 c2 : option string)
    (s : Store) :
  success hmac key save_ok now id (mkQuery st c1 sg) s
    = success hmac key save_ok now id (mkQuery st c2 sg) s /\
  (forall (o : Order) (k : string) (oc' : N),
     find_by_id id s = Some o -> oc' <> orderCode o ->
     snd (success hmac (Some k) save_ok now id
            (mkQuery (Some "PAID") c1 (Some (hmac k (sig_message oc' (Some "PAID"))))) s) = s).
Proof.
  split; [reflexivity|].
  intros o k oc' Hf Hne. unfold success. rewrite Hf.
  destruct (sig_ok hmac k o _) eqn:Hok; [|done].
  exfalso. apply Hne.
  unfold sig_ok in Hok. simpl in Hok.
  apply String.eqb_eq in Hok. apply (inj (hmac k)) in Hok.
  by apply sig_message_paid_inj.
Qed.

Lemma success_binds_stored_orderCode_witness :
  (forall k, Inj (=) (=) (toy_hmac k)) /\
  find_by_id 1 (ex_store (ex_order PENDING None (Some default_activation)))
    = Some (ex_order PENDING None (Some default_activation)) /\
  (43 <> orderCode (ex_order PENDING None (Some default_activation)))%N /\
  snd (success toy_hmac (Some "K") true 9 1
         (mkQuery (Some "PAID") (Some "42") (Some (toy_hmac "K" (sig_message 43 (Some "PAID")))))
         (ex_store (ex_order PENDING None (Some default_activation))))
  = ex_store (ex_order PENDING None (Some default_activation)).
Proof.
  split; [exact toy_hmac_inj|]. split; [reflexivity|]. split; [simpl; lia|].
  apply (proj2 (success_binds_stored_orderCode toy_hmac toy_hmac_inj (Some "K") true 9 1
                  (Some "PAID") (Some "x") (Some "42") (Some "42")
                  (ex_store (ex_order PENDING None (Some default_activation))))
           (ex_order PENDING None (Some default_activation)) "K" 43%N).
  - reflexivity.
  - simpl. lia.
Defined.

Lemma success_return_trip_outcome_witness :
  find_by_id 1 (ex_store (ex_order PENDING None (Some default_activation)))
    = Some (ex_order PENDING None (Some default_activation)) /\
  find_by_id 1 (snd (success toy_hmac (Some "K") true 9 1 ex_paid_query
                       (ex_store (ex_order PENDING None (Some default_activation)))))
    = Some (ex_order PAID (Some 9%N) (Some default_activation)).
Proof.
  split; [reflexivity|].
  destruct (success_return_trip_outcome toy_hmac (Some "K") true 9 1 ex_paid_query
              (ex_store (ex_order PENDING None (Some default_activation)))
              (ex_order PENDING None (Some default_activation)) eq_refl)
    as (_ & _ & _ & H).
  rewrite H. reflexivity.
Defined.

(* ------------------------------------------------------------------ *)
(** ** POST /api/activate and POST /api/validate *)

Lemma truthy_num_some v c : truthy_num v = Some c <-> v = Some c /\ c <> 0%N.
Proof.
  destruct v as [n|]; simpl; [destruct (N.eqb_spec n 0)|]; naive_solver.
Qed.

Lemma truthy_num_none v : truthy_num v = None <-> v = None \/ v = Some 0%N.
Proof.
  destruct v as [n|]; simpl; [destruct (N.eqb_spec n 0)|]; naive_solver.
Qed.

Lemma truthy_str_some v x : truthy_str v = Some x <-> v = Some x /\ x <> "".
Proof.
  destruct v as [y|]; simpl; [destruct (String.eqb_spec y "")|]; naive_solver.
Qed.

Lemma truthy_str_none v : truthy_str v = None <-> v = None \/ v = Some "".
Proof.
  destruct v as [y|]; simpl; [destruct (String.eqb_spec y "")|]; naive_solver.
Qed.

Lemma find_one_code_code c s o : find_one_code c s = Some o -> orderCode o = c.
Proof.
  unfold find_one_code. intros H. apply List.find_some in H as [_ H].
  by apply N.eqb_eq.
Qed.

Lemma find_one_code_in c s o : find_one_code c s = Some o -> In o (orders s).
Proof. unfold find_one_code. intros H. by apply List.find_some in H as [H _]. Qed.

Lemma activate_read_first now rq s c o :
  truthy_num (a_orderCode rq) = Some c -> find_one_code c s = Some o ->
  status o = PAID -> is_activated o = false ->
  activate_read now rq s
  = ActSave (order_id o) (new_activation now rq)
      (Activated (order_id o) c (truthy_str (a_deviceId rq)) now (drive_link_of o s)).
Proof.
  intros Hc Hf Hp Ha. unfold activate_read. rewrite Hc, Hf, Hp. simpl.
  rewrite (find_one_code_code _ _ _ Hf).
  unfold is_activated in Ha. destruct (activation o) as [a|]; [|done].
  by rewrite Ha.
Qed.

Example activate_first_then_conflict :
  let s := ex_store (ex_order PAID (Some 9%N) (Some default_activation)) in
  let '(r1, s1) := activate true 20 (ex_activate_req (Some 42%N) (Some "dev-123")) s in
  let '(r2, s2) := activate true 30 (ex_activate_req (Some 42%N) (Some "dev-999")) s1 in
  r1 = Activated 1 42 (Some "dev-123") 20 (Some "https://drive/x") /\
  r2 = AlreadyActivated (Some 20%N) (Some "dev-123") /\ s2 = s1.
Proof. vm_compute. repeat split. Qed.

(** C3 (amended).  The case analysis of Activate.  A missing or zero
    (falsy) orderCode yields BadRequest; an unknown orderCode NotFound; a
    PENDING order NotPaid; an activated order AlreadyActivated with the
    stored [activatedAt] and [deviceId] and no write; otherwise, when the
    save succeeds, the activation subdocument of that order becomes
    [isActivated = true], [activatedAt = now], [deviceId] = the given value
    when it is a non-empty string and null otherwise, [ip] = [infer_ip]
    (a non-empty string x-forwarded-for header, else the connection
    address), and the response carries the populated item's driveLink; a
    failing save yields 500 with no write.  The [Activated] response, the
    only one with a driveLink, arises only on that last path. *)
Theorem activate_cases (save_ok : bool) (now : N) (rq : ActivateReq) (s : Store) :
  ((a_orderCode rq = None \/ a_orderCode rq = Some 0%N) ->
     activate save_ok now rq s = (BadRequest "orderCode is required", s)) /\
  (forall c, a_orderCode rq = Some c -> c <> 0%N ->
     (find_one_code c s = None -> activate save_ok now rq s = (NotFound, s)) /\
     (forall o, find_one_code c s = Some o ->
        (status o = PENDING -> activate save_ok now rq s = (NotPaid, s)) /\
        (forall a, status o = PAID -> activation o = Some a -> isActivated a = true ->
           activate save_ok now rq s = (AlreadyActivated (activatedAt a) (deviceId a), s)) /\
        (status o = PAID -> is_activated o = false ->
           activate save_ok now rq s
           = if save_ok
             then (Activated (order_id o) c (truthy_str (a_deviceId rq)) now (drive_link_of o s),
                   update_order (order_id o) (set_activation (Some (new_activation now rq))) s)
             else (ServerError, s)))) /\
  ((forall h, xff rq = Some (HStr h) -> h <> "" -> infer_ip rq = Some h) /\
   (forall h, xff rq = Some (HStr h) -> h = "" ->
      infer_ip rq = Some (default "" (js_or (remoteAddress rq) (req_ip rq)))) /\
   (xff rq = None -> infer_ip rq = Some (default "" (js_or (remoteAddress rq) (req_ip rq))))) /\
  (forall oid oc dev t link, fst (activate save_ok now rq s) = Activated oid oc dev t link ->
     save_ok = true /\ exists o, find_one_code oc s = Some o /\ status o = PAID /\
                      is_activated o = false /\ order_id o = oid /\ link = drive_link_of o s).
Proof.
  split; [|split; [|split]].
  - intros Hn. apply truthy_num_none in Hn.
    unfold activate, activate_read. by rewrite Hn.
  - intros c Hc Hc0.
    assert (Ht : truthy_num (a_orderCode rq) = Some c) by (apply truthy_num_some; done).
    split.
    + intros Hf. unfold activate, activate_read. by rewrite Ht, Hf.
    + intros o Hf. split; [|split].
      * intros Hp. unfold activate, activate_read. by rewrite Ht, Hf, Hp.
      * intros a Hp Ha Hia. unfold activate, activate_read. by rewrite Ht, Hf, Hp, Ha, Hia.
      * intros Hp Hia. unfold activate.
        rewrite (activate_read_first now rq s c o Ht Hf Hp Hia). done.
  - unfold infer_ip, js_or, truthy_str. split; [|split].
    + intros h Hx Hh. rewrite Hx. destruct (String.eqb_spec h ""); done.
    + intros h Hx ->. rewrite Hx. simpl. done.
    + intros Hx. rewrite Hx. done.
  - intros oid oc dev t link.
    unfold activate, activate_read.
    destruct (truthy_num (a_orderCode rq)) as [c|] eqn:Hc; [|done].
    destruct (find_one_code c s) as [o|] eqn:Hf; [|done].
    assert (Hoc := find_one_code_code _ _ _ Hf).
    destruct (status o) eqn:Hp; [done|]. simpl.
    unfold is_activated. destruct (activation o) as [a|] eqn:Ha.
    + destruct (isActivated a) eqn:Hia; [done|]. simpl.
      destruct save_ok; [|done]. simpl. intros [= <- <- _ _ <-].
      split; [done|]. exists o. rewrite Hoc, Hf, Ha, Hia. done.
    + simpl. destruct save_ok; [|done]. simpl. intros [= <- <- _ _ <-].
      split; [done|]. exists o. rewrite Hoc, Hf, Ha. done.
Qed.

Lemma activate_cases_witness :
  activate true 20 (ex_activate_req (Some 42%N) (Some "dev-123"))
    (ex_store (ex_order PAID (Some 9%N) (Some default_activation)))
  = (Activated 1 42 (Some "dev-123") 20 (Some "https://drive/x"),
     update_order 1 (set_activation (Some (new_activation 20 (ex_activate_req (Some 42%N) (Some "dev-123")))))
       (ex_store (ex_order PAID (Some 9%N) (Some default_activation)))).
Proof.
  destruct (activate_cases true 20 (ex_activate_req (Some 42%N) (Some "dev-123"))
              (ex_store (ex_order PAID (Some 9%N) (Some default_activation))))
    as (_ & H & _).
  destruct (H 42%N eq_refl ltac:(discriminate)) as (_ & H2).
  destruct (H2 (ex_order PAID (Some 9%N) (Some default_activation)) eq_refl) as (_ & _ & H3).
  exact (H3 eq_refl eq_refl).
Defined.

(** C3 counterexample.  A request with [orderCode: 0] on a store with no
    order of code 0 is answered BadRequest ("orderCode is required"), not
    NotFound: [!orderCode] also rejects the present value 0. *)
Lemma activate_zero_orderCode_bad_request :
  let s := ex_store (ex_order PAID (Some 9%N) (Some default_activation)) in
  find_one_code 0 s = None /\
  activate true 20 (ex_activate_req (Some 0%N) (Some "dev-123")) s
  = (BadRequest "orderCode is required", s).
Proof. vm_compute. split; reflexivity. Qed.

(** C4 (amended).  The case analysis of Validate.  A missing or falsy
    field (orderCode absent or 0, deviceId absent or "") yields
    BadRequest; an unknown orderCode NotFound; a PENDING order NotPaid; an
    unactivated order (including [activation: null]) NotActivated; a bound
    non-empty deviceId different from the supplied one DeviceMismatch;
    otherwise {ok:true}, in particular whenever the bound deviceId is
    null or "". *)
Theorem validate_cases (rq : ValidateReq) (s : Store) :
  ((v_orderCode rq = None \/ v_orderCode rq = Some 0%N \/
    v_deviceId rq = None \/ v_deviceId rq = Some "") ->
     validate rq s = (BadRequest "orderCode & deviceId required", s)) /\
  (forall c dev, v_orderCode rq = Some c -> c <> 0%N ->
     v_deviceId rq = Some dev -> dev <> "" ->
     (find_one_code c s = None -> validate rq s = (NotFound, s)) /\
     (forall o, find_one_code c s = Some o ->
        (status o = PENDING -> validate rq s = (NotPaid, s)) /\
        (status o = PAID -> is_activated o = false -> validate rq s = (NotActivated, s)) /\
        (forall a b, status o = PAID -> activation o = Some a -> isActivated a = true ->
           deviceId a = Some b -> b <> "" -> b <> dev -> validate rq s = (DeviceMismatch, s)) /\
        (forall a, status o = PAID -> activation o = Some a -> isActivated a = true ->
           (deviceId a = None \/ deviceId a = Some "" \/ deviceId a = Some dev) ->
           validate rq s = (ValidOk, s)))).
Proof.
  split.
  - intros H. unfold validate.
    destruct H as [H|[H|[H|H]]]; rewrite H; simpl; [done|done| |];
      destruct (truthy_num _); done.
  - intros c dev Hc Hc0 Hd Hd0.
    assert (Ht : truthy_num (v_orderCode rq) = Some c) by (apply truthy_num_some; done).
    assert (Hs : truthy_str (v_deviceId rq) = Some dev) by (apply truthy_str_some; done).
    unfold validate. rewrite Ht, Hs. split.
    + intros Hf. by rewrite Hf.
    + intros o Hf. rewrite Hf. split; [|split; [|split]].
      * intros Hp. by rewrite Hp.
      * intros Hp Hia. rewrite Hp. unfold is_activated in Hia. simpl.
        destruct (activation o) as [a|]; [|done]. by rewrite Hia.
      * intros a b Hp Ha Hia Hb Hb0 Hne. rewrite Hp, Ha, Hia. simpl.
        rewrite Hb. simpl. destruct (String.eqb_spec b ""); [done|].
        destruct (String.eqb_spec b dev); done.
      * intros a Hp Ha Hia Hb. rewrite Hp, Ha, Hia. simpl.
        destruct Hb as [Hb|[Hb|Hb]]; rewrite Hb; simpl; [done|done|].
        destruct (String.eqb_spec dev ""); [done|].
        by rewrite String.eqb_refl.
Qed.

Lemma validate_cases_witness :
  let s := ex_store (ex_order PAID (Some 9%N)
             (Some (mkActivation true (Some 20%N) (Some "dev-123") (Some "10.0.0.9")))) in
  validate (mkValidateReq (Some 42%N) (Some "dev-999")) s = (DeviceMismatch, s).
Proof.
  intros s.
  destruct (validate_cases (mkValidateReq (Some 42%N) (Some "dev-999")) s) as (_ & H).
  destruct (H 42%N "dev-999" eq_refl ltac:(discriminate) eq_refl ltac:(discriminate))
    as (_ & H2).
  destruct (H2 (ex_order PAID (Some 9%N)
             (Some (mkActivation true (Some 20%N) (Some "dev-123") (Some "10.0.0.9"))))
             eq_refl) as (_ & _ & H3 & _).
  exact (H3 _ "dev-123" eq_refl eq_refl eq_refl eq_refl ltac:(discriminate) ltac:(discriminate)).
Defined.

(** C4 counterexample.  [orderCode: 0] with a deviceId, on a store with no
    order of code 0, is answered BadRequest, not NotFound. *)
Lemma validate_zero_orderCode_bad_request :
  let s := ex_store (ex_order PAID (Some 9%N) (Some default_activation)) in
  find_one_code 0 s = None /\
  validate (mkValidateReq (Some 0%N) (Some "dev-123")) s
  = (BadRequest "orderCode & deviceId required", s).
Proof. vm_compute. split; reflexivity. Qed.

Lemma validate_store (rq : ValidateReq) (s : Store) : snd (validate rq s) = s.
Proof.
  unfold validate.
  destruct (truthy_num (v_orderCode rq)), (truthy_str (v_deviceId rq)); try done.
  destruct (find_one_code _ s) as [o|]; [|done].
  destruct (negb _); [done|].
  destruct (activation o) as [a|]; [|done].
  destruct (negb (isActivated a)); [done|].
  destruct (truthy_str (deviceId a)); [|done].
  by destruct (negb _).
Qed.

(** C6.  Validate never writes: whatever the request and the outcome, the
    store after the request is the store before it. *)
Theorem validate_no_mutation (rq : ValidateReq) (s : Store) :
  snd (validate rq s) = s.
Proof. apply validate_store. Qed.

(** C10.  When the catalog item of a PAID, unactivated order is gone
    ([populate] yields null), Activate with a successful save still binds
    the device and sets [isActivated], and answers with [driveLink = null]. *)
Theorem activate_deleted_item_null_link (now : N) (rq : ActivateReq) (s : Store)
    (c : N) (o : Order) :
  a_orderCode rq = Some c -> c <> 0%N -> find_one_code c s = Some o ->
  status o = PAID -> is_activated o = false -> populate o s = None ->
  activate true now rq s
  = (Activated (order_id o) c (truthy_str (a_deviceId rq)) now None,
     update_order (order_id o) (set_activation (Some (new_activation now rq))) s).
Proof.
  intros Hc Hc0 Hf Hp Hia Hpop.
  assert (Ht : truthy_num (a_orderCode rq) = Some c) by (apply truthy_num_some; done).
  unfold activate. rewrite (activate_read_first now rq s c o Ht Hf Hp Hia).
  simpl. unfold drive_link_of. by rewrite Hpop.
Qed.

Lemma activate_deleted_item_null_link_witness :
  let s := snd (delete_code 7 (ex_store (ex_order PAID (Some 9%N) (Some default_activation)))) in
  activate true 20 (ex_activate_req (Some 42%N) (Some "dev-123")) s
  = (Activated 1 42 (Some "dev-123") 20 None,
     update_order 1 (set_activation (Some (new_activation 20 (ex_activate_req (Some 42%N) (Some "dev-123"))))) s).
Proof.
  intros s.
  exact (activate_deleted_item_null_link 20 (ex_activate_req (Some 42%N) (Some "dev-123")) s
           42 (ex_order PAID (Some 9%N) (Some default_activation))
           eq_refl ltac:(discriminate) eq_refl eq_refl eq_refl eq_refl).
Defined.

(* ------------------------------------------------------------------ *)
(** ** Updates of one order, with unique [_id]s *)

Lemma NoDup_map_eq {A B} (f : A -> B) (l : list A) x y :
  List.NoDup (map f l) -> In x l -> In y l -> f x = f y -> x = y.
Proof.
  induction l as [|z l IH]; simpl; [done|].
  intros Hnd Hx Hy Hf. apply NoDup_cons_iff in Hnd as [Hz Hnd].
  destruct Hx as [<-|Hx], Hy as [<-|Hy]; try done.
  - exfalso. apply Hz. rewrite Hf. by apply in_map.
  - exfalso. apply Hz. rewrite <- Hf. by apply in_map.
  - by apply IH.
Qed.

(** Saving the order found by its code (by its [_id]) changes exactly
    that order, when [_id]s are unique. *)
Lemma find_one_code_update_same (c : N) (f : Order -> Order) (s : Store) (o : Order) :
  List.NoDup (map order_id (orders s)) ->
  (forall x, orderCode (f x) = orderCode x) ->
  find_one_code c s = Some o ->
  find_one_code c (update_order (order_id o) f s) = Some (f o).
Proof.
  unfold find_one_code, update_order. simpl. intros Hnd Hf.
  induction (orders s) as [|x l IH]; simpl; [done|].
  apply NoDup_cons_iff in Hnd as [Hx Hnd].
  destruct (N.eqb (orderCode x) c) eqn:Hxc.
  - intros [= <-]. rewrite N.eqb_refl. simpl. by rewrite Hf, Hxc.
  - intros Hfo.
    assert (Hin : In o l) by (by apply List.find_some in Hfo as [? _]).
    destruct (N.eqb_spec (order_id x) (order_id o)) as [He|He].
    + exfalso. apply Hx. rewrite He. by apply in_map.
    + simpl. rewrite Hxc. by apply IH.
Qed.

Lemma find_one_code_update_code (c : N) (f : Order -> Order) (s : Store) :
  (forall x, orderCode (f x) = orderCode x) ->
  find_one_code c (update_one_code c f s) = option_map f (find_one_code c s).
Proof.
  intros Hf. unfold find_one_code, update_one_code. simpl.
  apply update_first_find. intros x. by rewrite Hf.
Qed.

(* ------------------------------------------------------------------ *)
(** ** Concurrent activations *)

(** C5 counterexample.  Two Activate calls on the same PAID, never
    activated order, whose reads both run before either save: both are
    answered [Activated] (each handing out the driveLink), and the second
    save overwrites the first device binding. *)
Lemma activate_interleaved_both_succeed :
  let s0 := ex_store (ex_order PAID (Some 9%N) (Some default_activation)) in
  let rqA := ex_activate_req (Some 42%N) (Some "dev-A") in
  let rqB := ex_activate_req (Some 42%N) (Some "dev-B") in
  let pA := activate_read 20 rqA s0 in
  let pB := activate_read 21 rqB s0 in
  let rA := activate_commit true pA s0 in
  let rB := activate_commit true pB (snd rA) in
  fst rA = Activated 1 42 (Some "dev-A") 20 (Some "https://drive/x") /\
  fst rB = Activated 1 42 (Some "dev-B") 21 (Some "https://drive/x") /\
  find_by_id 1 (snd rB)
  = Some (ex_order PAID (Some 9%N) (Some (new_activation 21 rqB))).
Proof. vm_compute. repeat split. Qed.

(** C5 (amended).  Activate reads and saves in two steps with no
    conditional update.  Run one after the other on a PAID, unactivated
    order, the first call succeeds and the second observes
    AlreadyActivated with the first call's binding; when both reads come
    before either save, both calls succeed and the later save's binding
    is the one stored. *)
Theorem activate_two_calls (now1 now2 : N) (rq1 rq2 : ActivateReq) (s : Store)
    (c : N) (o : Order) :
  List.NoDup (map order_id (orders s)) ->
  truthy_num (a_orderCode rq1) = Some c -> truthy_num (a_orderCode rq2) = Some c ->
  find_one_code c s = Some o -> status o = PAID -> is_activated o = false ->
  (fst (activate true now1 rq1 s)
     = Activated (order_id o) c (truthy_str (a_deviceId rq1)) now1 (drive_link_of o s) /\
   fst (activate true now2 rq2 (snd (activate true now1 rq1 s)))
     = AlreadyActivated (Some now1) (truthy_str (a_deviceId rq1))) /\
  (let p1 := activate_read now1 rq1 s in
   let p2 := activate_read now2 rq2 s in
   let r1 := activate_commit true p1 s in
   let r2 := activate_commit true p2 (snd r1) in
   fst r1 = Activated (order_id o) c (truthy_str (a_deviceId rq1)) now1 (drive_link_of o s) /\
   fst r2 = Activated (order_id o) c (truthy_str (a_deviceId rq2)) now2 (drive_link_of o s) /\
   find_one_code c (snd r2)
     = Some (set_activation (Some (new_activation now2 rq2)) o)).
Proof.
  intros Hnd H1 H2 Hf Hp Hia.
  rewrite (activate_read_first now1 rq1 s c o H1 Hf Hp Hia).
  rewrite (activate_read_first now2 rq2 s c o H2 Hf Hp Hia).
  unfold activate. rewrite (activate_read_first now1 rq1 s c o H1 Hf Hp Hia).
  simpl. split; [split; [done|]|split; [done|split; [done|]]].
  - unfold activate_read. rewrite H2.
    rewrite (find_one_code_update_same c (set_activation (Some (new_activation now1 rq1)))
               s o Hnd ltac:(done) Hf). simpl.
    by rewrite Hp.
  - set (s1 := update_order (order_id o) (set_activation (Some (new_activation now1 rq1))) s).
    assert (Hnd1 : List.NoDup (map order_id (orders s1))).
    { unfold s1, update_order. simpl. by rewrite update_first_map. }
    assert (Hf1 : find_one_code c s1
                  = Some (set_activation (Some (new_activation now1 rq1)) o)).
    { by apply find_one_code_update_same. }
    exact (find_one_code_update_same c (set_activation (Some (new_activation now2 rq2)))
             _ _ Hnd1 ltac:(done) Hf1).
Qed.

Lemma activate_two_calls_witness :
  let s0 := ex_store (ex_order PAID (Some 9%N) (Some default_activation)) in
  let rqA := ex_activate_req (Some 42%N) (Some "dev-A") in
  let rqB := ex_activate_req (Some 42%N) (Some "dev-B") in
  fst (activate true 30 rqB (snd (activate true 20 rqA s0)))
  = AlreadyActivated (Some 20%N) (Some "dev-A").
Proof.
  intros s0 rqA rqB.
  destruct (activate_two_calls 20 30 rqA rqB s0 42
              (ex_order PAID (Some 9%N) (Some default_activation))
              ltac:(vm_compute; repeat constructor; simpl; tauto)
              eq_refl eq_refl eq_refl eq_refl eq_refl) as ((_ & H) & _).
  exact H.
Defined.

(* ------------------------------------------------------------------ *)
(** ** paidAt *)

(** C7 counterexample.  Admin mark-paid on an order that is already PAID
    with [paidAt = 9] overwrites [paidAt] with the current time 30. *)
Lemma mark_paid_overwrites_paidAt :
  let s := ex_store (ex_order PAID (Some 9%N) (Some default_activation)) in
  find_by_id 1 (snd (mark_paid 30 1 s))
  = Some (ex_order PAID (Some 30%N) (Some default_activation)).
Proof. reflexivity. Qed.

(** C7 (amended).  [paidAt] is stamped with the current time on every
    admin mark-paid and on every verified return trip whose save
    succeeds, whatever the order's previous status and [paidAt]: a
    replayed return trip or a later mark-paid re-stamps it. *)
Theorem paidAt_restamped (hmac : string -> string -> string) (k : string)
    (now id : N) (q : Query) (s : Store) (o : Order) :
  find_by_id id s = Some o ->
  find_by_id id (snd (mark_paid now id s)) = Some (mark_paid_fields now o) /\
  paidAt (mark_paid_fields now o) = Some now /\
  (sig_ok hmac k o q = true ->
   find_by_id id (snd (success hmac (Some k) true now id q s))
   = Some (mark_paid_fields now o)).
Proof.
  intros Hf. split; [|split; [done|]].
  - simpl. rewrite find_by_id_update, Hf; done.
  - intros Hok.
    destruct (success_outcome hmac (Some k) true now id q s o Hf)
      as (_ & _ & _ & H).
    rewrite H. simpl. by rewrite Hok.
Qed.

Lemma paidAt_restamped_witness :
  let s := ex_store (ex_order PAID (Some 9%N) (Some default_activation)) in
  find_by_id 1 (snd (success toy_hmac (Some "K") true 30 1 ex_paid_query s))
  = Some (ex_order PAID (Some 30%N) (Some default_activation)).
Proof.
  intros s.
  destruct (paidAt_restamped toy_hmac "K" 30 1 ex_paid_query s
              (ex_order PAID (Some 9%N) (Some default_activation)) eq_refl)
    as (_ & _ & H).
  exact (H eq_refl).
Defined.

(* ------------------------------------------------------------------ *)
(** ** Resetting an activation *)




(* ------------------------------------------------------------------ *)
(** ** Activated orders are PAID in every reachable state *)

Lemma update_first_keep {A} (p : A -> bool) (g : A -> A) (l : list A) (x : A) :
  In x l -> In x (update_first p g l) \/ In (g x) (update_first p g l).
Proof.
  induction l as [|y l IH]; simpl; [done|].
  destruct (p y); simpl.
  - intros [<-|Hx]; auto.
  - intros [<-|Hx]; [auto|]. destruct (IH Hx); auto.
Qed.

Lemma pending_mono (st st' : Store) (l : list ActStep) :
  (forall o, In o (orders st) -> status o = PAID ->
     exists o', In o' (orders st') /\ order_id o' = order_id o /\ status o' = PAID) ->
  Forall (pending_ok st) l -> Forall (pending_ok st') l.
Proof.
  intros Hm Hl. eapply Forall_impl; [exact Hl|]. intros [r|i a r]; simpl; [done|].
  intros (o & Hin & Hid & Hp). destruct (Hm o Hin Hp) as (o' & ? & ? & ?).
  exists o'. split; [done|]. split; congruence.
Qed.

Lemma inv_same_orders (st st' : Store) (l : list ActStep) :
  orders st' = orders st -> sys_inv (mkSys st l) -> sys_inv (mkSys st' l).
Proof.
  intros He (Hnd & Ha & Hp). unfold sys_inv; simpl in *. rewrite He.
  split; [done|split; [done|]].
  eapply pending_mono; [|exact Hp]. intros o Hin Hpaid. rewrite He. by exists o.
Qed.

Lemma inv_update (st : Store) (cs : list SourceCode) (l : list ActStep)
    (p : Order -> bool) (g : Order -> Order) :
  sys_inv (mkSys st l) ->
  (forall o, order_id (g o) = order_id o) ->
  (forall o, status o = PAID -> status (g o) = PAID) ->
  (forall o, In o (orders st) -> p o = true -> is_activated (g o) = true -> status (g o) = PAID) ->
  sys_inv (mkSys {| orders := update_first p g (orders st); codes := cs |} l).
Proof.
  intros (Hnd & Ha & Hp) Hid Hpaid Hg. unfold sys_inv; simpl in *.
  split; [|split].
  - by rewrite update_first_map.
  - intros y Hy Hay. destruct (update_first_in _ _ _ _ Hy) as [Hin|(x & Hin & Hpx & ->)].
    + by apply Ha.
    + by apply Hg.
  - eapply pending_mono; [|exact Hp]. intros o Hin Hpo. simpl.
    destruct (update_first_keep p g _ o Hin) as [H|H].
    + by exists o.
    + exists (g o). split; [done|]. split; [apply Hid|by apply Hpaid].
Qed.

Lemma inv_update_order (st : Store) (l : list ActStep) (i : N) (g : Order -> Order) :
  sys_inv (mkSys st l) ->
  (forall o, order_id (g o) = order_id o) ->
  (forall o, status o = PAID -> status (g o) = PAID) ->
  (forall o, In o (orders st) -> order_id o = i -> is_activated (g o) = true ->
     status (g o) = PAID) ->
  sys_inv (mkSys (update_order i g st) l).
Proof.
  intros Hinv Hid Hpaid Hg. unfold update_order. apply inv_update; [done|done|done|].
  intros o Hin Hp. apply Hg; [done|]. by apply N.eqb_eq.
Qed.

Lemma inv_add_order (st : Store) (l : list ActStep) (o : Order) :
  sys_inv (mkSys st l) ->
  (forall x, In x (orders st) -> order_id x <> order_id o) ->
  is_activated o = false ->
  sys_inv (mkSys {| orders := orders st ++ [o]; codes := codes st |} l).
Proof.
  intros (Hnd & Ha & Hp) Hfresh Hno. unfold sys_inv; simpl in *. split; [|split].
  - rewrite map_app. apply List.NoDup_app; [done| |].
    + simpl. constructor; [intros []|constructor].
    + intros i Hi [<-|[]]. apply in_map_iff in Hi as (x & Hx & Hin).
      by apply (Hfresh x Hin).
  - intros y Hy Hay. apply in_app_or in Hy as [Hy|[<-|[]]].
    + by apply Ha.
    + congruence.
  - eapply pending_mono; [|exact Hp]. intros x Hin Hpx.
    exists x. split; [apply in_or_app; by left|done].
Qed.

Lemma activate_read_pending (now : N) (rq : ActivateReq) (st : Store) :
  pending_ok st (activate_read now rq st).
Proof.
  unfold activate_read.
  destruct (truthy_num _) as [c|]; [|done].
  destruct (find_one_code c st) as [o|] eqn:Hf; [|done].
  destruct (status o) eqn:Hp; [done|]. simpl.
  assert (Hin := find_one_code_in _ _ _ Hf).
  destruct (activation o) as [a|]; [destruct (isActivated a)|]; simpl; try done;
    exists o; done.
Qed.

Lemma sys_step_inv (x y : Sys) : sys_inv x -> sys_step x y -> sys_inv y.
Proof.
  intros Hinv Hs. destruct Hs.
  - (* POST /order *)
    unfold create_order.
    destruct (List.find _ (codes st)) as [c|]; [|exact Hinv].
    destruct (existsb _ (orders st)) eqn:He; [exact Hinv|].
    set (o := {| order_id := new_id; buyerName := name; buyerEmail := email;
                 code := code_id c; amount := priceVND c; orderCode := now;
                 status := PENDING; paymentLinkId := None; checkoutUrl := None;
                 paidAt := None; activation := Some default_activation |}).
    assert (H1 : sys_inv (mkSys {| orders := orders st ++ [o]; codes := codes st |} l)).
    { apply inv_add_order; [done| |done].
      intros x Hin Hid. apply Bool.not_true_iff_false in He. apply He.
      apply existsb_exists. exists x. split; [done|].
      simpl in Hid. rewrite Hid, N.eqb_refl. done. }
    destruct payos as [[pl cu]|]; [|exact H1].
    apply inv_update_order; [done|done|done|].
    intros x Hin _ Hx. destruct H1 as (_ & Ha & _). exact (Ha x Hin Hx).
  - (* GET /order/:id/success *)
    unfold success.
    destruct (find_by_id id st) as [o|]; [|exact Hinv].
    destruct key as [k|]; [|exact Hinv].
    destruct (sig_ok hmac k o q); [|exact Hinv].
    destruct save_ok; [|exact Hinv].
    apply inv_update_order; done.
  - (* POST /admin/orders/:id/mark-paid *)
    apply inv_update_order; done.
  - (* POST /admin/activations/:id/reset *)
    apply inv_update_order; done.
  - (* POST /api/admin/reset-activation *)
    unfold reset_api.
    destruct (negb _); [exact Hinv|].
    destruct (truthy_num oc) as [c|]; [|exact Hinv].
    unfold update_one_code. apply inv_update; done.
  - (* POST /api/validate *)
    rewrite validate_store. exact Hinv.
  - apply (inv_same_orders st); [done|exact Hinv].
  - apply (inv_same_orders st); [done|exact Hinv].
  - apply (inv_same_orders st); [done|exact Hinv].
  - (* the read of POST /api/activate *)
    destruct Hinv as (Hnd & Ha & Hp). unfold sys_inv; simpl.
    split; [done|split; [done|]]. constructor; [|done].
    apply activate_read_pending.
  - (* the save of POST /api/activate *)
    destruct Hinv as (Hnd & Ha & Hp). simpl in Hp.
    apply Forall_app in Hp as [Hp1 Hp2]. apply Forall_cons in Hp2 as [Hpp Hp2].
    assert (Hl : Forall (pending_ok st) (l1 ++ l2)) by (apply Forall_app; done).
    assert (Hinv' : sys_inv (mkSys st (l1 ++ l2))) by done.
    destruct p as [r|i a r]; simpl; [exact Hinv'|].
    destruct save_ok; [|exact Hinv'].
    apply inv_update_order; [done|done|done|].
    intros x Hin Hid _. destruct Hpp as (o & Hino & Hido & Hpo).
    assert (x = o) as ->
      by (apply (NoDup_map_eq order_id (orders st)); [done|done|done|congruence]).
    exact Hpo.
Qed.

Lemma reachable_inv (x : Sys) : reachable x -> sys_inv x.
Proof.
  induction 1 as [cs|x y _ IH Hs].
  - unfold sys_inv; simpl. split; [constructor|split; [done|constructor]].
  - by apply (sys_step_inv x).
Qed.

(** C8.  In every state reachable from an empty order collection, by any
    interleaving of order creation, return trips, mark-paid, both resets,
    Validate, catalog edits, and the reads and saves of Activate calls,
    every activated order is PAID. *)
Theorem reachable_activated_paid (x : Sys) :
  reachable x ->
  forall o, In o (orders (sys_store x)) -> is_activated o = true -> status o = PAID.
Proof. intros Hr. apply (reachable_inv x Hr). Qed.

Lemma reachable_activated_paid_witness :
  let st0 := {| orders := []; codes := [ex_code] |} in
  let st1 := snd (create_order 42 1 7 "An" "an@x.vn" (Some (Some "pl", Some "url")) st0) in
  let st2 := snd (mark_paid 50 1 st1) in
  let rq := ex_activate_req (Some 42%N) (Some "dev-123") in
  let st3 := snd (activate_commit true (activate_read 60 rq st2) st2) in
  reachable (mkSys st3 []) /\
  exists o, find_by_id 1 st3 = Some o /\ is_activated o = true /\ status o = PAID.
Proof.
  intros st0 st1 st2 rq st3.
  assert (Hr : reachable (mkSys st3 [])).
  { apply (reach_step (mkSys st2 ([] ++ activate_read 60 rq st2 :: []))).
    - apply (reach_step (mkSys st2 [])).
      + apply (reach_step (mkSys st1 [])).
        * apply (reach_step (mkSys st0 [])); [apply reach_init|apply ss_create].
        * apply ss_mark_paid.
      + apply ss_activate_read.
    - apply (ss_activate_save true (activate_read 60 rq st2) st2 [] []). }
  split; [exact Hr|].
  assert (Hf : find_by_id 1 st3
               = Some (set_payment (Some "pl") (Some "url")
                         (ex_order PAID (Some 50%N) (Some (new_activation 60 rq)))))
    by (vm_compute; reflexivity).
  eexists. split; [exact Hf|]. split; [reflexivity|].
  apply (reachable_activated_paid (mkSys st3 []) Hr).
  - apply List.find_some in Hf as [Hin _]. exact Hin.
  - reflexivity.
Defined.

(* ------------------------------------------------------------------ *)
(** ** POST /order *)

(** The order document written by POST /order. *)
Lemma update_first_app_last {A} (p : A -> bool) (f : A -> A) (l : list A) (x : A) :
  (forall y, In y l -> p y = false) -> p x = true ->
  update_first p f (l ++ [x])%list = (l ++ [f x])%list.
Proof.
  intros Hl Hx. induction l as [|y l IH]; simpl; [by rewrite Hx|].
  rewrite (Hl y (or_introl eq_refl)). f_equal. apply IH. intros z Hz. apply Hl. by right.
Qed.

Lemma find_app_last {A} (p : A -> bool) (l : list A) (x : A) :
  (forall y, In y l -> p y = false) -> p x = true ->
  List.find p (l ++ [x])%list = Some x.
Proof.
  intros Hl Hx. induction l as [|y l IH]; simpl; [by rewrite Hx|].
  rewrite (Hl y (or_introl eq_refl)). apply IH. intros z Hz. apply Hl. by right.
Qed.

Lemma create_fresh_existsb (s : Store) (now new_id : N) :
  (forall o, In o (orders s) -> order_id o <> new_id /\ orderCode o <> now) ->
  existsb (fun o => N.eqb (order_id o) new_id || N.eqb (orderCode o) now) (orders s) = false.
Proof.
  intros H. apply Bool.not_true_iff_false. intros He.
  apply existsb_exists in He as (o & Hin & Ho).
  destruct (H o Hin) as [H1 H2].
  apply orb_true_iff in Ho as [Ho|Ho]; apply N.eqb_eq in Ho; done.
Qed.


Lemma create_order_ok (now new_id codeId : N) (name email : string)
    (pl cu : option string) (s : Store) (c : SourceCode) :
  List.find (fun c => N.eqb (code_id c) codeId) (codes s) = Some c ->
  (forall o, In o (orders s) -> order_id o <> new_id /\ orderCode o <> now) ->
  create_order now new_id codeId name email (Some (pl, cu)) s
  = (Redirect cu,
     {| orders := orders s ++ [set_payment pl cu (new_order now new_id c name email)];
        codes := codes s |}) /\
  find_by_id new_id (snd (create_order now new_id codeId name email (Some (pl, cu)) s))
  = Some (set_payment pl cu (new_order now new_id c name email)) /\
  find_one_code now (snd (create_order now new_id codeId name email (Some (pl, cu)) s))
  = Some (set_payment pl cu (new_order now new_id c name email)).
Proof.
  intros Hc Hfresh.
  assert (He := create_fresh_existsb s now new_id Hfresh).
  assert (Hu : create_order now new_id codeId name email (Some (pl, cu)) s
    = (Redirect cu,
       {| orders := orders s ++ [set_payment pl cu (new_order now new_id c name email)];
          codes := codes s |})).
  { unfold create_order. rewrite Hc, He. unfold update_order. simpl.
    rewrite update_first_app_last; [done| |by rewrite N.eqb_refl].
    intros y Hy. apply N.eqb_neq. by destruct (Hfresh y Hy). }
  split; [exact Hu|]. rewrite Hu. unfold find_by_id, find_one_code. simpl.
  split; apply find_app_last; try (simpl; by rewrite N.eqb_refl);
    intros y Hy; apply N.eqb_neq; by destruct (Hfresh y Hy).
Qed.

(** POST /order, success path: for a known catalog item and a fresh
    [_id] and orderCode, the store gains exactly one order at the end: it
    is PENDING, has orderCode [Date.now()], the item's current price as
    [amount], no [paidAt], an unactivated activation record, and the
    provider's [paymentLinkId]/[checkoutUrl]; the buyer is redirected to
    that checkout URL. *)
Theorem create_order_appends_pending (now new_id codeId : N) (name email : string)
    (pl cu : option string) (s : Store) (c : SourceCode) :
  List.find (fun c => N.eqb (code_id c) codeId) (codes s) = Some c ->
  (forall o, In o (orders s) -> order_id o <> new_id /\ orderCode o <> now) ->
  create_order now new_id codeId name email (Some (pl, cu)) s
  = (Redirect cu,
     {| orders := orders s ++ [set_payment pl cu (new_order now new_id c name email)];
        codes := codes s |}) /\
  find_by_id new_id (snd (create_order now new_id codeId name email (Some (pl, cu)) s))
  = Some (set_payment pl cu (new_order now new_id c name email)) /\
  find_one_code now (snd (create_order now new_id codeId name email (Some (pl, cu)) s))
  = Some (set_payment pl cu (new_order now new_id c name email)).
Proof. apply create_order_ok. Qed.

Lemma create_order_appends_pending_witness :
  create_order 42 1 7 "An" "an@x.vn" (Some (Some "pl", Some "url"))
    {| orders := []; codes := [ex_code] |}
  = (Redirect (Some "url"),
     {| orders := [set_payment (Some "pl") (Some "url") (new_order 42 1 ex_code "An" "an@x.vn")];
        codes := [ex_code] |}).
Proof.
  exact (proj1 (create_order_appends_pending 42 1 7 "An" "an@x.vn" (Some "pl") (Some "url")
                  {| orders := []; codes := [ex_code] |} ex_code eq_refl
                  (fun o (H : In o []) => match H with end))).
Defined.

Lemma create_order_fail (now new_id codeId : N) (name email : string)
    (payos : option (option string * option string)) (s : Store) (c : SourceCode) (o : Order) :
  (List.find (fun c => N.eqb (code_id c) codeId) (codes s) = None ->
     create_order now new_id codeId name email payos s = (NotFound, s)) /\
  (List.find (fun c => N.eqb (code_id c) codeId) (codes s) = Some c ->
     In o (orders s) -> (order_id o = new_id \/ orderCode o = now) ->
     create_order now new_id codeId name email payos s = (ServerError, s)) /\
  (List.find (fun c => N.eqb (code_id c) codeId) (codes s) = Some c ->
     (forall o, In o (orders s) -> order_id o <> new_id /\ orderCode o <> now) ->
     create_order now new_id codeId name email None s
     = (ServerError, {| orders := orders s ++ [new_order now new_id c name email];
                        codes := codes s |})).
Proof.
  split; [|split].
  - intros Hc. unfold create_order. by rewrite Hc.
  - intros Hc Hin Ho. unfold create_order. rewrite Hc.
    replace (existsb _ (orders s)) with true; [done|]. symmetry.
    apply existsb_exists. exists o. split; [done|].
    apply orb_true_iff. destruct Ho as [->| ->]; [left|right]; apply N.eqb_refl.
  - intros Hc Hfresh. unfold create_order. rewrite Hc, create_fresh_existsb; done.
Qed.

(** POST /order, failure paths: an unknown catalog item is answered 404
    and nothing is written; an [_id] or orderCode already in use (the
    unique index rejects [Order.create]) is answered 500 and nothing is
    written; when the provider call fails the answer is 500 but the
    PENDING order, without checkout URL, stays in the store. *)
Theorem create_order_failures (now new_id codeId : N) (name email : string)
    (payos : option (option string * option string)) (s : Store) (c : SourceCode) (o : Order) :
  (List.find (fun c => N.eqb (code_id c) codeId) (codes s) = None ->
     create_order now new_id codeId name email payos s = (NotFound, s)) /\
  (List.find (fun c => N.eqb (code_id c) codeId) (codes s) = Some c ->
     In o (orders s) -> (order_id o = new_id \/ orderCode o = now) ->
     create_order now new_id codeId name email payos s = (ServerError, s)) /\
  (List.find (fun c => N.eqb (code_id c) codeId) (codes s) = Some c ->
     (forall o, In o (orders s) -> order_id o <> new_id /\ orderCode o <> now) ->
     create_order now new_id codeId name email None s
     = (ServerError, {| orders := orders s ++ [new_order now new_id c name email];
                        codes := codes s |})).
Proof. apply create_order_fail. Qed.

Lemma create_order_failures_witness :
  let s := ex_store (ex_order PAID (Some 9%N) (Some default_activation)) in
  create_order 42 2 7 "Binh" "b@x.vn" (Some (Some "pl", Some "url")) s = (ServerError, s).
Proof.
  intros s.
  exact (proj1 (proj2 (create_order_failures 42 2 7 "Binh" "b@x.vn"
                  (Some (Some "pl", Some "url")) s ex_code
                  (ex_order PAID (Some 9%N) (Some default_activation))))
           eq_refl (or_introl eq_refl) (or_intror eq_refl)).
Defined.


(** Two purchases in the same millisecond get the same orderCode
    [Date.now()]: after the first POST /order has gone through, the
    second one is answered 500 and writes nothing, whatever catalog item
    it is for. *)
Theorem create_order_same_millisecond (now id1 id2 codeId1 codeId2 : N)
    (n1 e1 n2 e2 : string) (pl cu : option string)
    (pay2 : option (option string * option string)) (s : Store) (c1 c2 : SourceCode) :
  List.find (fun c => N.eqb (code_id c) codeId1) (codes s) = Some c1 ->
  (forall o, In o (orders s) -> order_id o <> id1 /\ orderCode o <> now) ->
  List.find (fun c => N.eqb (code_id c) codeId2) (codes s) = Some c2 ->
  let s1 := snd (create_order now id1 codeId1 n1 e1 (Some (pl, cu)) s) in
  create_order now id2 codeId2 n2 e2 pay2 s1 = (ServerError, s1).
Proof.
  intros Hc1 Hfresh Hc2 s1.
  destruct (create_order_ok now id1 codeId1 n1 e1 pl cu s c1 Hc1 Hfresh)
    as (Hs1 & _ & _).
  assert (Hin : In (set_payment pl cu (new_order now id1 c1 n1 e1)) (orders s1)).
  { unfold s1. rewrite Hs1. simpl. apply in_or_app. right. by left. }
  apply (proj1 (proj2 (create_order_fail now id2 codeId2 n2 e2 pay2 s1 c2
                         (set_payment pl cu (new_order now id1 c1 n1 e1))))).
  - unfold s1. rewrite Hs1. exact Hc2.
  - exact Hin.
  - by right.
Qed.

Lemma create_order_same_millisecond_witness :
  let s1 := snd (create_order 42 1 7 "An" "an@x.vn" (Some (Some "pl", Some "url"))
                   {| orders := []; codes := [ex_code] |}) in
  create_order 42 2 7 "Binh" "b@x.vn" (Some (Some "pl2", Some "url2")) s1 = (ServerError, s1).
Proof.
  exact (create_order_same_millisecond 42 1 2 7 7 "An" "an@x.vn" "Binh" "b@x.vn"
           (Some "pl") (Some "url") (Some (Some "pl2", Some "url2"))
           {| orders := []; codes := [ex_code] |} ex_code ex_code eq_refl
           (fun o (H : In o []) => match H with end) eq_refl).
Defined.

(* ------------------------------------------------------------------ *)
(** ** The signed return URL *)

(** Round trip: the return URL signed by POST /order verifies on
    GET /order/:id/success for the order it created (under the same
    checksum key), which then becomes PAID with [paidAt] stamped. *)
Theorem create_then_return_trip (hmac : string -> string -> string) (k : string)
    (now t new_id codeId : N) (name email : string) (pl cu : option string)
    (s : Store) (c : SourceCode) :
  List.find (fun c => N.eqb (code_id c) codeId) (codes s) = Some c ->
  (forall o, In o (orders s) -> order_id o <> new_id /\ orderCode o <> now) ->
  let o1 := set_payment pl cu (new_order now new_id c name email) in
  let s1 := snd (create_order now new_id codeId name email (Some (pl, cu)) s) in
  let r := success hmac (Some k) true t new_id (signed_return_query hmac k now) s1 in
  fst r = RenderStatus (mark_paid_fields t o1) true /\
  find_by_id new_id (snd r) = Some (mark_paid_fields t o1).
Proof.
  intros Hc Hfresh o1 s1 r.
  destruct (create_order_ok now new_id codeId name email pl cu s c Hc Hfresh)
    as (_ & Hf & _).
  assert (Hok : sig_ok hmac k o1 (signed_return_query hmac k now) = true).
  { unfold sig_ok, signed_return_query, sig_message. simpl.
    by rewrite !String.eqb_refl. }
  destruct (success_outcome hmac (Some k) true t new_id
              (signed_return_query hmac k now) s1 o1 Hf) as (_ & (o' & Hr & _ & Ho') & _ & Hs).
  rewrite Hok in Ho', Hs. simpl in Ho', Hs.
  split; [unfold r; rewrite Hr; by rewrite (Ho' eq_refl)|exact Hs].
Qed.

Lemma create_then_return_trip_witness :
  let s1 := snd (create_order 42 1 7 "An" "an@x.vn" (Some (Some "pl", Some "url"))
                   {| orders := []; codes := [ex_code] |}) in
  find_by_id 1 (snd (success toy_hmac (Some "K") true 50 1 (signed_return_query toy_hmac "K" 42) s1))
  = Some (mark_paid_fields 50 (set_payment (Some "pl") (Some "url")
                                 (new_order 42 1 ex_code "An" "an@x.vn"))).
Proof.
  exact (proj2 (create_then_return_trip toy_hmac "K" 42 50 1 7 "An" "an@x.vn"
                  (Some "pl") (Some "url") {| orders := []; codes := [ex_code] |} ex_code
                  eq_refl (fun o (H : In o []) => match H with end))).
Defined.



(* ------------------------------------------------------------------ *)
(** ** Activate and Validate together *)

(** After a first activation with a successful save, Validate of the same
    orderCode accepts the bound device and rejects any other non-empty
    device with DeviceMismatch; if the activation bound no device (absent
    or empty deviceId), Validate accepts every non-empty deviceId. *)
Theorem activate_then_validate (now : N) (rq : ActivateReq) (s : Store) (c : N) (o : Order) :
  List.NoDup (map order_id (orders s)) ->
  truthy_num (a_orderCode rq) = Some c -> find_one_code c s = Some o ->
  status o = PAID -> is_activated o = false ->
  let s1 := snd (activate true now rq s) in
  (forall d, truthy_str (a_deviceId rq) = Some d ->
     validate (mkValidateReq (Some c) (Some d)) s1 = (ValidOk, s1) /\
     (forall d', d' <> "" -> d' <> d ->
        validate (mkValidateReq (Some c) (Some d')) s1 = (DeviceMismatch, s1))) /\
  (truthy_str (a_deviceId rq) = None ->
     forall d', d' <> "" -> validate (mkValidateReq (Some c) (Some d')) s1 = (ValidOk, s1)).
Proof.
  intros Hnd Hc Hf Hp Hia s1.
  assert (Hc0 : c <> 0%N) by (apply truthy_num_some in Hc as [_ ?]; done).
  assert (Hs1 : s1 = update_order (order_id o) (set_activation (Some (new_activation now rq))) s).
  { unfold s1, activate. by rewrite (activate_read_first now rq s c o Hc Hf Hp Hia). }
  assert (Hf1 : find_one_code c s1 = Some (set_activation (Some (new_activation now rq)) o)).
  { rewrite Hs1. by apply find_one_code_update_same. }
  assert (Hv : forall d', d' <> "" ->
             validate (mkValidateReq (Some c) (Some d')) s1
             = (match truthy_str (a_deviceId rq) with
                | Some b => if negb (String.eqb b d') then DeviceMismatch else ValidOk
                | None => ValidOk end, s1)).
  { intros d' Hd'. unfold validate. simpl.
    replace (N.eqb c 0) with false by (symmetry; by apply N.eqb_neq).
    replace (String.eqb d' "") with false by (symmetry; by apply String.eqb_neq).
    rewrite Hf1. simpl. rewrite Hp. simpl.
    destruct (truthy_str (a_deviceId rq)) as [b|] eqn:Hb; [|done].
    apply truthy_str_some in Hb as [_ Hb]. simpl.
    destruct (String.eqb_spec b ""); [done|]. by destruct (String.eqb b d'). }
  split.
  - intros d Hd. assert (Hd0 : d <> "") by (apply truthy_str_some in Hd as [_ ?]; done).
    split.
    + rewrite (Hv d Hd0), Hd, String.eqb_refl. done.
    + intros d' Hd' Hne. rewrite (Hv d' Hd'), Hd.
      destruct (String.eqb_spec d d'); [congruence|done].
  - intros Hn d' Hd'. by rewrite (Hv d' Hd'), Hn.
Qed.

Lemma activate_then_validate_witness :
  let s1 := snd (activate true 20 (ex_activate_req (Some 42%N) (Some "dev-123"))
                   (ex_store (ex_order PAID (Some 9%N) (Some default_activation)))) in
  validate (mkValidateReq (Some 42%N) (Some "dev-999")) s1 = (DeviceMismatch, s1).
Proof.
  destruct (activate_then_validate 20 (ex_activate_req (Some 42%N) (Some "dev-123"))
              (ex_store (ex_order PAID (Some 9%N) (Some default_activation))) 42
              (ex_order PAID (Some 9%N) (Some default_activation))
              ltac:(vm_compute; repeat constructor; simpl; tauto)
              eq_refl eq_refl eq_refl eq_refl) as (H & _).
  exact (proj2 (H "dev-123" eq_refl) "dev-999" ltac:(discriminate) ltac:(discriminate)).
Defined.

(** After either reset route, Validate of that order answers
    NotActivated, whatever device it names. *)
Theorem validate_after_reset (s : Store) (o : Order) (c : N) (dev : string)
    (env hdr : option string) :
  List.NoDup (map order_id (orders s)) ->
  find_one_code c s = Some o -> status o = PAID -> c <> 0%N -> dev <> "" ->
  opt_str_eqb hdr env = true ->
  validate (mkValidateReq (Some c) (Some dev)) (snd (reset_ui (order_id o) s))
    = (NotActivated, snd (reset_ui (order_id o) s)) /\
  validate (mkValidateReq (Some c) (Some dev)) (snd (reset_api env hdr (Some c) s))
    = (NotActivated, snd (reset_api env hdr (Some c) s)).
Proof.
  intros Hnd Hf Hp Hc Hd Hs.
  assert (Hui : find_one_code c (snd (reset_ui (order_id o) s))
                = Some (set_activation (Some cleared_activation) o))
    by (by apply find_one_code_update_same).
  assert (Hapi : find_one_code c (snd (reset_api env hdr (Some c) s))
                 = Some (set_activation None o)).
  { unfold reset_api. rewrite Hs. simpl.
    replace (N.eqb c 0) with false by (symmetry; by apply N.eqb_neq). simpl.
    rewrite find_one_code_update_code, Hf; done. }
  assert (Hc' : N.eqb c 0 = false) by (by apply N.eqb_neq).
  assert (Hd' : String.eqb dev "" = false) by (by apply String.eqb_neq).
  split.
  - remember (snd (reset_ui (order_id o) s)) as s'.
    unfold validate. simpl. rewrite Hc', Hd', Hui. simpl. by rewrite Hp.
  - remember (snd (reset_api env hdr (Some c) s)) as s'.
    unfold validate. simpl. rewrite Hc', Hd', Hapi. simpl. by rewrite Hp.
Qed.

Lemma validate_after_reset_witness :
  let act := Some (mkActivation true (Some 20%N) (Some "dev-123") (Some "10.0.0.9")) in
  let s := ex_store (ex_order PAID (Some 9%N) act) in
  validate (mkValidateReq (Some 42%N) (Some "dev-123")) (snd (reset_ui 1 s))
  = (NotActivated, snd (reset_ui 1 s)).
Proof.
  exact (proj1 (validate_after_reset
                  (ex_store (ex_order PAID (Some 9%N)
                     (Some (mkActivation true (Some 20%N) (Some "dev-123") (Some "10.0.0.9")))))
                  (ex_order PAID (Some 9%N)
                     (Some (mkActivation true (Some 20%N) (Some "dev-123") (Some "10.0.0.9"))))
                  42 "dev-123" None None
                  ltac:(vm_compute; repeat constructor; simpl; tauto)
                  eq_refl eq_refl ltac:(discriminate) ltac:(discriminate) eq_refl)).
Defined.

(** When [ADMIN_ACTIVATE_SECRET] is not configured, POST
    /api/admin/reset-activation without an x-admin-secret header passes
    the check ([undefined === undefined]) and resets; when it is
    configured, a request without the header is answered 401 and writes
    nothing. *)
Theorem reset_api_unset_secret (oc : option N) (s : Store) :
  (forall c, truthy_num oc = Some c ->
     reset_api None None oc s = (ResetOk, update_one_code c (set_activation None) s)) /\
  (forall x, reset_api (Some x) None oc s = (Unauthorized, s)).
Proof.
  split.
  - intros c Hc. unfold reset_api. simpl. by rewrite Hc.
  - intros x. done.
Qed.

Lemma reset_api_unset_secret_witness :
  let act := Some (mkActivation true (Some 20%N) (Some "dev-123") (Some "10.0.0.9")) in
  let s := ex_store (ex_order PAID (Some 9%N) act) in
  fst (reset_api None None (Some 42%N) s) = ResetOk.
Proof.
  intros act s. rewrite (proj1 (reset_api_unset_secret (Some 42%N) s) 42%N eq_refl). done.
Defined.

(* ------------------------------------------------------------------ *)
(** ** What one step does to the stored orders *)

Lemma order_evolves_list_refl (l : list Order) : Forall2 order_evolves l l.
Proof. induction l; constructor; [split; done|done]. Qed.

Lemma order_evolves_update_first (p : Order -> bool) (g : Order -> Order) (l : list Order) :
  (forall x, order_fixed (g x) = order_fixed x) ->
  (forall x, status x = PAID -> status (g x) = PAID) ->
  Forall2 order_evolves l (update_first p g l).
Proof.
  intros Hf Hp. induction l as [|x l IH]; simpl; [constructor|].
  destruct (p x); constructor; try done.
  - split; [apply Hf|apply Hp].
  - apply order_evolves_list_refl.
Qed.

Lemma evolve_same (st st' : Store) :
  orders st' = orders st ->
  exists l1 l2, orders st' = (l1 ++ l2)%list /\ Forall2 order_evolves (orders st) l1 /\
                length l2 <= 1.
Proof.
  intros ->. exists (orders st), []. rewrite app_nil_r.
  split; [done|split; [apply order_evolves_list_refl|simpl; lia]].
Qed.

Lemma evolve_update (st : Store) (cs : list SourceCode) (p : Order -> bool)
    (g : Order -> Order) :
  (forall x, order_fixed (g x) = order_fixed x) ->
  (forall x, status x = PAID -> status (g x) = PAID) ->
  exists l1 l2, orders {| orders := update_first p g (orders st); codes := cs |} = (l1 ++ l2)%list /\
    Forall2 order_evolves (orders st) l1 /\ length l2 <= 1.
Proof.
  intros Hf Hp. exists (update_first p g (orders st)), []. simpl. rewrite app_nil_r.
  split; [done|split; [by apply order_evolves_update_first|simpl; lia]].
Qed.

(** Every request, and each half of an Activate call, only appends to
    the order collection (at most one new order) and never deletes or
    reorders orders; every stored order keeps its [_id], orderCode,
    [amount], catalog reference, buyer name and email, and a PAID order
    stays PAID (no route sets an order back to PENDING, and catalog edits
    never re-price existing orders). *)
Theorem sys_step_orders_evolve (x y : Sys) :
  sys_step x y ->
  exists l1 l2, orders (sys_store y) = (l1 ++ l2)%list /\
    Forall2 order_evolves (orders (sys_store x)) l1 /\ length l2 <= 1.
Proof.
  intros Hs. destruct Hs; simpl.
  - unfold create_order.
    destruct (List.find _ (codes st)) as [c|]; [|by apply evolve_same].
    destruct (existsb _ (orders st)); [by apply evolve_same|].
    set (o := {| order_id := new_id; buyerName := name; buyerEmail := email;
                 code := code_id c; amount := priceVND c; orderCode := now;
                 status := PENDING; paymentLinkId := None; checkoutUrl := None;
                 paidAt := None; activation := Some default_activation |}).
    destruct payos as [[pl cu]|].
    + simpl.
      assert (H : Forall2 order_evolves (orders st ++ [o])
                    (update_first (fun x => N.eqb (order_id x) new_id) (set_payment pl cu)
                       (orders st ++ [o])))
        by (apply order_evolves_update_first; intros []; done).
      apply Forall2_app_inv_l in H as (k1 & k2 & H1 & H2 & ->).
      exists k1, k2. split; [done|split; [done|]].
      apply Forall2_length in H2. simpl in H2. lia.
    + exists (orders st), [o]. simpl.
      split; [done|split; [apply order_evolves_list_refl|simpl; lia]].
  - unfold success.
    destruct (find_by_id id st) as [o|]; [|by apply evolve_same].
    destruct key as [k|]; [|by apply evolve_same].
    destruct (sig_ok hmac k o q); [|by apply evolve_same].
    destruct save_ok; [|by apply evolve_same].
    apply (evolve_update st (codes st)); intros []; done.
  - apply (evolve_update st (codes st)); intros []; done.
  - apply (evolve_update st (codes st)); intros []; done.
  - unfold reset_api.
    destruct (negb _); [by apply evolve_same|].
    destruct (truthy_num oc) as [c|]; [|by apply evolve_same].
    apply (evolve_update st (codes st)); intros []; done.
  - apply evolve_same. by rewrite validate_store.
  - by apply evolve_same.
  - by apply evolve_same.
  - by apply evolve_same.
  - by apply evolve_same.
  - destruct p as [r|i a r]; simpl; [by apply evolve_same|].
    destruct save_ok; [|by apply evolve_same].
    apply (evolve_update st (codes st)); intros []; done.
Qed.

Lemma sys_step_orders_evolve_witness :
  let s := ex_store (ex_order PENDING None (Some default_activation)) in
  exists l1 l2, orders (snd (mark_paid 50 1 s)) = (l1 ++ l2)%list /\
    Forall2 order_evolves (orders s) l1 /\ length l2 <= 1.
Proof.
  exact (sys_step_orders_evolve
           (mkSys (ex_store (ex_order PENDING None (Some default_activation))) [])
           (mkSys (snd (mark_paid 50 1 (ex_store (ex_order PENDING None (Some default_activation))))) [])
           (ss_mark_paid 50 1 _ [])).
Defined.

Lemma sys_step_codes_nodup (x y : Sys) :
  List.NoDup (map orderCode (orders (sys_store x))) -> sys_step x y ->
  List.NoDup (map orderCode (orders (sys_store y))).
Proof.
  intros Hnd Hs. destruct Hs; simpl in *.
  - unfold create_order.
    destruct (List.find _ (codes st)) as [c|]; [|done].
    destruct (existsb _ (orders st)) eqn:He; [done|].
    set (o := {| order_id := new_id; buyerName := name; buyerEmail := email;
                 code := code_id c; amount := priceVND c; orderCode := now;
                 status := PENDING; paymentLinkId := None; checkoutUrl := None;
                 paidAt := None; activation := Some default_activation |}).
    assert (H1 : List.NoDup (map orderCode (orders st ++ [o]))).
    { rewrite map_app. apply List.NoDup_app; [done|simpl; constructor; [intros []|constructor]|].
      intros i Hi [<-|[]]. apply in_map_iff in Hi as (x & Hx & Hin).
      apply Bool.not_true_iff_false in He. apply He.
      apply existsb_exists. exists x. split; [done|].
      simpl in Hx. rewrite Hx, N.eqb_refl, orb_true_r. done. }
    destruct payos as [[pl cu]|]; simpl; [|done].
    rewrite update_first_map; [done|]. by intros [].
  - unfold success.
    destruct (find_by_id id st) as [o|]; [|done].
    destruct key as [k|]; [|done].
    destruct (sig_ok hmac k o q); [|done].
    destruct save_ok; [|done]. simpl. rewrite update_first_map; [done|]. by intros [].
  - simpl. rewrite update_first_map; [done|]. by intros [].
  - simpl. rewrite update_first_map; [done|]. by intros [].
  - unfold reset_api.
    destruct (negb _); [done|].
    destruct (truthy_num oc) as [c|]; [|done].
    simpl. rewrite update_first_map; [done|]. by intros [].
  - by rewrite validate_store.
  - done.
  - done.
  - done.
  - done.
  - destruct p as [r|i a r]; simpl; [done|].
    destruct save_ok; [|done]. simpl. rewrite update_first_map; [done|]. by intros [].
Qed.

(** In every reachable state no two orders share an orderCode or an
    [_id], so [Order.findOne({ orderCode })] (used by Activate, Validate
    and the API reset) and [findById] each select the one order carrying
    that key. *)
Theorem reachable_unique_keys (x : Sys) :
  reachable x ->
  List.NoDup (map orderCode (orders (sys_store x))) /\
  List.NoDup (map order_id (orders (sys_store x))) /\
  (forall o, In o (orders (sys_store x)) ->
     find_one_code (orderCode o) (sys_store x) = Some o /\
     find_by_id (order_id o) (sys_store x) = Some o).
Proof.
  intros Hr.
  assert (Hc : List.NoDup (map orderCode (orders (sys_store x)))).
  { induction Hr as [cs|x y _ IH Hs]; [simpl; constructor|].
    by apply (sys_step_codes_nodup x). }
  assert (Hi : List.NoDup (map order_id (orders (sys_store x))))
    by apply (reachable_inv x Hr).
  split; [done|split; [done|]].
  intros o Hin. split.
  - unfold find_one_code.
    destruct (List.find _ _) as [o'|] eqn:Hf.
    + apply List.find_some in Hf as [Hin' He]. apply N.eqb_eq in He.
      f_equal. by apply (NoDup_map_eq orderCode (orders (sys_store x))).
    + exfalso. apply (List.find_none _ _ Hf) in Hin. by rewrite N.eqb_refl in Hin.
  - unfold find_by_id.
    destruct (List.find _ _) as [o'|] eqn:Hf.
    + apply List.find_some in Hf as [Hin' He]. apply N.eqb_eq in He.
      f_equal. by apply (NoDup_map_eq order_id (orders (sys_store x))).
    + exfalso. apply (List.find_none _ _ Hf) in Hin. by rewrite N.eqb_refl in Hin.
Qed.

Lemma ex_run_reachable :
  let st0 := {| orders := []; codes := [ex_code] |} in
  let st1 := snd (create_order 42 1 7 "An" "an@x.vn" (Some (Some "pl", Some "url")) st0) in
  let st2 := snd (create_order 43 2 7 "Binh" "b@x.vn" (Some (Some "pl2", Some "url2")) st1) in
  reachable (mkSys st2 []).
Proof.
  intros st0 st1 st2.
  apply (reach_step (mkSys st1 [])); [|apply ss_create].
  apply (reach_step (mkSys st0 [])); [apply reach_init|apply ss_create].
Qed.

Lemma reachable_unique_keys_witness :
  let st0 := {| orders := []; codes := [ex_code] |} in
  let st1 := snd (create_order 42 1 7 "An" "an@x.vn" (Some (Some "pl", Some "url")) st0) in
  let st2 := snd (create_order 43 2 7 "Binh" "b@x.vn" (Some (Some "pl2", Some "url2")) st1) in
  List.NoDup (map orderCode (orders st2)).
Proof.
  exact (proj1 (reachable_unique_keys _ ex_run_reachable)).
Defined.

(* ------------------------------------------------------------------ *)
(** ** Requests about an order that does not exist *)

(** For an [_id] that names no order, the return page, the cancel page
    and the status API answer 404, and the admin mark-paid and reset
    routes redirect as usual; none of them writes.  The API reset of an
    orderCode no order carries answers [{ok:true}] all the same, and
    writes nothing. *)
Theorem unknown_order_noop (hmac : string -> string -> string) (key : option string)
    (save_ok : bool) (now id : N) (q : Query) (env hdr : option string) (c : N) (s : Store) :
  find_by_id id s = None ->
  success hmac key save_ok now id q s = (NotFound, s) /\
  cancel_page id s = (NotFound, s) /\
  api_order_status id s = (StatusNotFound, s) /\
  mark_paid now id s = (Redirect (Some "/admin/orders"), s) /\
  reset_ui id s = (Redirect (Some "back"), s) /\
  (find_one_code c s = None -> c <> 0%N -> opt_str_eqb hdr env = true ->
     reset_api env hdr (Some c) s = (ResetOk, s)).
Proof.
  intros Hf.
  assert (Hu : forall g, update_order id g s = s).
  { intros g. unfold update_order. rewrite update_first_nomatch; [by destruct s|done]. }
  unfold success, cancel_page, api_order_status. rewrite Hf.
  split; [done|split; [done|split; [done|]]].
  split; [unfold mark_paid; by rewrite Hu|split; [unfold reset_ui; by rewrite Hu|]].
  intros Hc Hc0 Hs. unfold reset_api. rewrite Hs. simpl.
  replace (N.eqb c 0) with false by (symmetry; by apply N.eqb_neq).
  unfold update_one_code. rewrite update_first_nomatch; [by destruct s|done].
Qed.

Lemma unknown_order_noop_witness :
  let s := ex_store (ex_order PAID (Some 9%N) (Some default_activation)) in
  mark_paid 50 5 s = (Redirect (Some "/admin/orders"), s).
Proof.
  exact (proj1 (proj2 (proj2 (proj2 (unknown_order_noop toy_hmac None true 50 5 ex_paid_query
           None None 42 (ex_store (ex_order PAID (Some 9%N) (Some default_activation)))
           eq_refl))))).
Defined.

(* ------------------------------------------------------------------ *)
(** ** Reading an order's state *)

(** The status API and the cancel page never write.  For a stored order
    the status API reports its stored status: after the admin mark-paid
    it reports PAID, and after either reset it still reports the status
    it had (resets touch only the activation).  The cancel page renders
    the stored order with [ok = false] and records nothing, so visiting it
    neither cancels nor un-pays an order. *)
Theorem order_status_reads (now id : N) (s : Store) :
  snd (api_order_status id s) = s /\ snd (cancel_page id s) = s /\
  (forall o, find_by_id id s = Some o ->
     api_order_status id s = (StatusJson (status o), s) /\
     cancel_page id s = (RenderStatus o false, s) /\
     api_order_status id (snd (mark_paid now id s))
       = (StatusJson PAID, snd (mark_paid now id s)) /\
     api_order_status id (snd (reset_ui id s))
       = (StatusJson (status o), snd (reset_ui id s))).
Proof.
  unfold api_order_status, cancel_page.
  split; [by destruct (find_by_id id s)|split; [by destruct (find_by_id id s)|]].
  intros o Hf. rewrite Hf.
  split; [done|split; [done|]]. unfold mark_paid, reset_ui. simpl.
  rewrite !find_by_id_update, Hf; try (intros []; done). done.
Qed.

Lemma order_status_reads_witness :
  let s := ex_store (ex_order PENDING None (Some default_activation)) in
  api_order_status 1 (snd (mark_paid 50 1 s)) = (StatusJson PAID, snd (mark_paid 50 1 s)).
Proof.
  exact (proj1 (proj2 (proj2 (proj2 (proj2 (order_status_reads 50 1
           (ex_store (ex_order PENDING None (Some default_activation)))))
           (ex_order PENDING None (Some default_activation)) eq_refl)))).
Defined.

(* ------------------------------------------------------------------ *)
(** ** Catalog edits and later orders *)

Lemma find_all_false {A} (p : A -> bool) (l : list A) :
  (forall y, In y l -> p y = false) -> List.find p l = None.
Proof.
  induction l as [|x l IH]; simpl; [done|]. intros H.
  rewrite (H x (or_introl eq_refl)). apply IH. intros y Hy. apply H. by right.
Qed.

Lemma delete_first_find_code (id : N) (l : list SourceCode) :
  List.NoDup (map code_id l) ->
  List.find (fun c => N.eqb (code_id c) id) (delete_first (fun x => N.eqb (code_id x) id) l)
  = None.
Proof.
  induction l as [|x l IH]; simpl; [done|]. intros Hnd.
  apply NoDup_cons_iff in Hnd as [Hx Hnd].
  destruct (N.eqb_spec (code_id x) id) as [<-|Hne].
  - apply find_all_false. intros y Hy. apply N.eqb_neq. intros He.
    apply Hx. rewrite <- He. by apply in_map.
  - simpl. replace (N.eqb (code_id x) id) with false by (symmetry; by apply N.eqb_neq).
    by apply IH.
Qed.

(** An order snapshots the catalog price when it is created.  After PUT
    /admin/codes/:id sets a new price, a new order for that item is
    created with the new price as its amount while every existing order
    keeps its amount; after DELETE /admin/codes/:id (catalog [_id]s being
    unique) buying that item answers 404 and writes nothing. *)
Theorem catalog_edit_then_order (now new_id id : N) (name email : string)
    (pl cu : option string) (c c0 : SourceCode) (s : Store) :
  List.find (fun x => N.eqb (code_id x) id) (codes s) = Some c0 ->
  (forall o, In o (orders s) -> order_id o <> new_id /\ orderCode o <> now) ->
  exists o,
    create_order now new_id id name email (Some (pl, cu)) (snd (update_code id c s))
    = (Redirect cu, {| orders := orders s ++ [o]; codes := codes (snd (update_code id c s)) |}) /\
    amount o = priceVND c /\ code o = id /\ status o = PENDING.
Proof.
  intros Hc0 Hfresh.
  set (f := fun x : SourceCode =>
              {| code_id := code_id x; title := title c; imageUrl := imageUrl c;
                 description := description c; driveLink := driveLink c;
                 priceVND := priceVND c |}).
  assert (Hc : List.find (fun x => N.eqb (code_id x) id) (codes (snd (update_code id c s)))
               = Some (f c0)).
  { simpl. rewrite (update_first_find _ f); [by rewrite Hc0|done]. }
  destruct (create_order_ok now new_id id name email pl cu (snd (update_code id c s)) (f c0) Hc
              Hfresh) as [H _].
  eexists. rewrite H. split; [reflexivity|].
  apply List.find_some in Hc0 as [_ Hid]. apply N.eqb_eq in Hid.
  simpl. done.
Qed.

Lemma catalog_edit_then_order_witness :
  let c := {| code_id := 0; title := "t2"; imageUrl := None; description := None;
              driveLink := "https://drive/y"; priceVND := 250000 |} in
  exists o,
    create_order 42 1 7 "An" "an@x.vn" (Some (Some "pl", Some "url"))
      (snd (update_code 7 c {| orders := []; codes := [ex_code] |}))
    = (Redirect (Some "url"),
       {| orders := [] ++ [o];
          codes := codes (snd (update_code 7 c {| orders := []; codes := [ex_code] |})) |}) /\
    amount o = 250000%N /\ code o = 7%N /\ status o = PENDING.
Proof.
  exact (catalog_edit_then_order 42 1 7 "An" "an@x.vn" (Some "pl") (Some "url")
           {| code_id := 0; title := "t2"; imageUrl := None; description := None;
              driveLink := "https://drive/y"; priceVND := 250000 |} ex_code
           {| orders := []; codes := [ex_code] |} eq_refl
           (fun o (H : In o []) => match H with end)).
Defined.

(** After DELETE /admin/codes/:id, when catalog [_id]s are unique, POST
    /order for that item answers 404 and writes nothing, whatever the
    provider would have answered. *)
Theorem delete_code_then_order (now new_id id : N) (name email : string)
    (payos : option (option string * option string)) (s : Store) :
  List.NoDup (map code_id (codes s)) ->
  create_order now new_id id name email payos (snd (delete_code id s))
  = (NotFound, snd (delete_code id s)).
Proof.
  intros Hnd. unfold create_order. simpl.
  rewrite delete_first_find_code; done.
Qed.

Lemma delete_code_then_order_witness :
  create_order 42 1 7 "An" "an@x.vn" (Some (Some "pl", Some "url"))
    (snd (delete_code 7 (ex_store (ex_order PAID (Some 9%N) (Some default_activation)))))
  = (NotFound,
     snd (delete_code 7 (ex_store (ex_order PAID (Some 9%N) (Some default_activation))))).
Proof.
  apply delete_code_then_order. vm_compute. repeat constructor. simpl. tauto.
Defined.
